(** * LeadForge front end: a shallow embedding of the Vue components

    The development follows the three single-file components of
    [frontend/src]: [ColumnMapping.vue], [App.vue], [BusinessList.vue] and
    the [EmailModal] component.  Component data is a record, a method is a
    function on that record returning the new data together with the
    effects it performs (toasts, HTTP requests, emitted events).  An [async]
    method is split at its [await]: one function for the part that runs
    when the method is called, one for the continuation on a fulfilled
    promise and one for the continuation on a rejected one.  Template
    bindings ([v-if], [:disabled]) are functions of the component data. *)

From stdpp Require Import base option list strings pretty.
From Stdlib Require Import Ascii String ZArith Lia.

Local Open Scope string_scope.

(** ** JavaScript values used by the components *)

Module JS.

(** Truthiness of a string: only the empty string is falsy. *)
Definition truthy (s : string) : bool := negb (String.eqb s "").

(** Truthiness of a value that is a string, [undefined] or [null]. *)
Definition truthy_opt (o : option string) : bool :=
  match o with
  | Some s => truthy s
  | None => false
  end.

(** [a || b] where [a] is a string or [undefined] and [b] a string. *)
Definition or_else (a : option string) (b : string) : string :=
  match a with
  | Some s => if truthy s then s else b
  | None => b
  end.

(** [Array.prototype.findIndex]; [None] stands for [-1]. *)
Fixpoint findIndex {A : Type} (p : A -> bool) (l : list A) : option nat :=
  match l with
  | [] => None
  | x :: l' => if p x then Some 0%nat else S <$> findIndex p l'
  end.

(** The body of an error response: a JSON object with an optional
    [error] member. *)
Record ErrorBody := { error : option string }.

(** [error.response] of a rejected axios call; [data] may be missing. *)
Record Response := { data : option ErrorBody }.

(** What a [catch] clause receives: an axios error (with [response] when
    the server answered) or a plain [Error] (no [response]). *)
Record Error := { response : option Response; message : string }.

(** [error.response?.data?.error] *)
Definition response_data_error (e : Error) : option string :=
  match response e with
  | Some r => match data r with
              | Some d => error d
              | None => None
              end
  | None => None
  end.

(** [String.prototype.toLowerCase] restricted to strings of ASCII code
    units: the letters A to Z are mapped to a to z, other code units are
    kept.  On other strings the built-in also lower-cases the cased
    letters outside ASCII; no property below depends on the value of this
    function on a non-empty string. *)
Definition lower (c : ascii) : ascii :=
  let n := nat_of_ascii c in
  if (65 <=? n)%nat && (n <=? 90)%nat then ascii_of_nat (n + 32) else c.

Fixpoint toLowerCase (s : string) : string :=
  match s with
  | EmptyString => EmptyString
  | String c s' => String (lower c) (toLowerCase s')
  end.

(** Toast notifications of vue-toastification. *)
Inductive ToastKind := success | warning | error_toast.

End JS.

(** ** ColumnMapping.vue *)

Module ColumnMapping.

Inductive field := business_name | industry | location.

Definition field_eqb (a b : field) : bool :=
  match a, b with
  | business_name, business_name | industry, industry | location, location => true
  | _, _ => false
  end.

(** [requiredFields: ['business_name', 'industry', 'location']] *)
Definition requiredFields : list field := [business_name; industry; location].

(** One entry of [mapping]: [{ column, displayName }]. *)
Record entry := { column : string; displayName : string }.

(** The [mapping] object: one entry per key. *)
Record mapping := {
  m_business_name : entry;
  m_industry : entry;
  m_location : entry }.

(** [mapping[field]] *)
Definition get (m : mapping) (f : field) : entry :=
  match f with
  | business_name => m_business_name m
  | industry => m_industry m
  | location => m_location m
  end.

(** [mapping[field] = e] *)
Definition set (m : mapping) (f : field) (e : entry) : mapping :=
  match f with
  | business_name => {| m_business_name := e; m_industry := m_industry m; m_location := m_location m |}
  | industry => {| m_business_name := m_business_name m; m_industry := e; m_location := m_location m |}
  | location => {| m_business_name := m_business_name m; m_industry := m_industry m; m_location := e |}
  end.

(** [mapping[field].column = c], what [v-model] on the [select] does. *)
Definition set_column (m : mapping) (f : field) (c : string) : mapping :=
  set m f {| column := c; displayName := displayName (get m f) |}.

(** [mapping[field].displayName = s], [v-model] on the text input. *)
Definition set_displayName (m : mapping) (f : field) (s : string) : mapping :=
  set m f {| column := column (get m f); displayName := s |}.

(** The value of [mapping] returned by [data()]. *)
Definition initial : mapping := {|
  m_business_name := {| column := ""; displayName := "Business Name" |};
  m_industry := {| column := ""; displayName := "Industry" |};
  m_location := {| column := ""; displayName := "Location" |} |}.

(** [Object.values(this.mapping)], in insertion order of the keys. *)
Definition values (m : mapping) : list entry :=
  [m_business_name m; m_industry m; m_location m].

(** [isMappingValid()]:
    [this.requiredFields.every(field => this.mapping[field].column)] *)
Definition isMappingValid (m : mapping) : bool :=
  forallb (fun f => JS.truthy (column (get m f))) requiredFields.

(** [isColumnMapped(column)]:
    [Object.values(this.mapping).some(m => m.column === column)] *)
Definition isColumnMapped (m : mapping) (c : string) : bool :=
  existsb (fun e => String.eqb (column e) c) (values m).

(** The [:disabled] binding of the option for header [c] in the selector
    of [f]: [isColumnMapped(column) && mapping[field].column !== column]. *)
Definition option_disabled (m : mapping) (f : field) (c : string) : bool :=
  isColumnMapped m c && negb (String.eqb (column (get m f)) c).

(** The [:disabled] binding of the Confirm button: [!isMappingValid]. *)
Definition confirm_disabled (m : mapping) : bool := negb (isMappingValid m).

(** Events the component emits to its parent. *)
Inductive emitted := EmitCancel | EmitConfirm (m : mapping).

(** [confirm()]: emits the mapping only when it is valid. *)
Definition confirm (m : mapping) : list emitted :=
  if isMappingValid m then [EmitConfirm m] else [].

(** [cancel()] *)
Definition cancel (m : mapping) : list emitted := [EmitCancel].

(** What the user can do to the form.  A selector offers the placeholder
    option (value [""], never disabled) and one option per available
    column; the browser does not let the user pick a disabled option. *)
Inductive action :=
| Select (f : field) (c : string)
| EditDisplayName (f : field) (s : string).

(** Can the user pick value [c] in the selector of [f]? *)
Definition selectable (availableColumns : list string) (m : mapping)
    (f : field) (c : string) : bool :=
  String.eqb c "" ||
  (existsb (String.eqb c) availableColumns && negb (option_disabled m f c)).

Definition act (availableColumns : list string) (m : mapping) (a : action) : mapping :=
  match a with
  | Select f c => if selectable availableColumns m f c then set_column m f c else m
  | EditDisplayName f s => set_displayName m f s
  end.

(** The form after a sequence of user actions, from the initial data. *)
Definition run (availableColumns : list string) (acts : list action) : mapping :=
  fold_left (act availableColumns) acts initial.

(** No two fields hold the same non-empty column. *)
Definition no_duplicates (m : mapping) : Prop :=
  forall f g, f <> g -> column (get m f) = column (get m g) -> column (get m f) = "".

(** The source columns of a mapping, in the order of [requiredFields]. *)
Definition columns (m : mapping) : list string :=
  map (fun f => column (get m f)) requiredFields.

(** The distinct non-empty headers of the uploaded file. *)
Definition distinct_headers (availableColumns : list string) : list string :=
  remove_dups (filter (fun c => c <> "") availableColumns).

End ColumnMapping.

(** ** App.vue: file selection and upload *)

Module App.

(** The part of a browser [File] the component reads. *)
Record File := { name : string; type : string }.

(** [uploadStatus]: [{ type: 'success' | 'error', message }]. *)
Inductive StatusType := status_success | status_error.
Record Status := { status_type : StatusType; message : string }.

(** A parsed CSV row: header and cell. *)
Definition row : Type := list (string * string).

(** The component data.  [uploadError] is assigned by the methods but is
    not declared in [data()] and no template binding reads it. *)
Record data := {
  selectedFile : option File;
  isDragover : bool;
  isUploading : bool;
  uploadStatus : option Status;
  showColumnMapping : bool;
  csvPreviewData : list row;
  csvColumns : list string;
  columnMapping : option ColumnMapping.mapping;
  uploadError : option string }.

Definition initial : data := {|
  selectedFile := None; isDragover := false; isUploading := false;
  uploadStatus := None; showColumnMapping := false; csvPreviewData := [];
  csvColumns := []; columnMapping := None; uploadError := None |}.

Definition set_selectedFile (v : option File) (s : data) : data :=
  {| selectedFile := v; isDragover := isDragover s; isUploading := isUploading s;
     uploadStatus := uploadStatus s; showColumnMapping := showColumnMapping s;
     csvPreviewData := csvPreviewData s; csvColumns := csvColumns s;
     columnMapping := columnMapping s; uploadError := uploadError s |}.

Definition set_isDragover (v : bool) (s : data) : data :=
  {| selectedFile := selectedFile s; isDragover := v; isUploading := isUploading s;
     uploadStatus := uploadStatus s; showColumnMapping := showColumnMapping s;
     csvPreviewData := csvPreviewData s; csvColumns := csvColumns s;
     columnMapping := columnMapping s; uploadError := uploadError s |}.

Definition set_isUploading (v : bool) (s : data) : data :=
  {| selectedFile := selectedFile s; isDragover := isDragover s; isUploading := v;
     uploadStatus := uploadStatus s; showColumnMapping := showColumnMapping s;
     csvPreviewData := csvPreviewData s; csvColumns := csvColumns s;
     columnMapping := columnMapping s; uploadError := uploadError s |}.

Definition set_uploadStatus (v : option Status) (s : data) : data :=
  {| selectedFile := selectedFile s; isDragover := isDragover s; isUploading := isUploading s;
     uploadStatus := v; showColumnMapping := showColumnMapping s;
     csvPreviewData := csvPreviewData s; csvColumns := csvColumns s;
     columnMapping := columnMapping s; uploadError := uploadError s |}.

Definition set_showColumnMapping (v : bool) (s : data) : data :=
  {| selectedFile := selectedFile s; isDragover := isDragover s; isUploading := isUploading s;
     uploadStatus := uploadStatus s; showColumnMapping := v;
     csvPreviewData := csvPreviewData s; csvColumns := csvColumns s;
     columnMapping := columnMapping s; uploadError := uploadError s |}.

Definition set_csvPreviewData (v : list row) (s : data) : data :=
  {| selectedFile := selectedFile s; isDragover := isDragover s; isUploading := isUploading s;
     uploadStatus := uploadStatus s; showColumnMapping := showColumnMapping s;
     csvPreviewData := v; csvColumns := csvColumns s;
     columnMapping := columnMapping s; uploadError := uploadError s |}.

Definition set_csvColumns (v : list string) (s : data) : data :=
  {| selectedFile := selectedFile s; isDragover := isDragover s; isUploading := isUploading s;
     uploadStatus := uploadStatus s; showColumnMapping := showColumnMapping s;
     csvPreviewData := csvPreviewData s; csvColumns := v;
     columnMapping := columnMapping s; uploadError := uploadError s |}.

Definition set_columnMapping (v : option ColumnMapping.mapping) (s : data) : data :=
  {| selectedFile := selectedFile s; isDragover := isDragover s; isUploading := isUploading s;
     uploadStatus := uploadStatus s; showColumnMapping := showColumnMapping s;
     csvPreviewData := csvPreviewData s; csvColumns := csvColumns s;
     columnMapping := v; uploadError := uploadError s |}.

Definition set_uploadError (v : option string) (s : data) : data :=
  {| selectedFile := selectedFile s; isDragover := isDragover s; isUploading := isUploading s;
     uploadStatus := uploadStatus s; showColumnMapping := showColumnMapping s;
     csvPreviewData := csvPreviewData s; csvColumns := csvColumns s;
     columnMapping := columnMapping s; uploadError := v |}.

(** What a method does besides changing the data.  [console.log] calls
    are left out. *)
Inductive effect :=
| Toast (k : JS.ToastKind) (msg : string)
| PapaParse (file : File)
    (* Papa.parse(this.selectedFile, { header: true, preview: 5, ... }) *)
| PostUpload (file : File) (column_mapping : ColumnMapping.mapping)
    (* axios.post(`${API_BASE_URL}/upload`, formData): the one network call *)
| SetFileInputValue (v : string)
    (* this.$refs.fileInput.value = v *)
| FetchBusinesses.
    (* this.$refs.businessList?.fetchBusinesses() *)

(** [<BusinessList ref="businessList" />] is rendered unconditionally, so
    the ref is set whenever a method runs. *)
Definition refs_businessList : bool := true.

(** [handleFileSelect(event)], with [file = event.target.files[0]]
    ([None] when the list is empty). *)
Definition handleFileSelect (file : option File) (s : data) : data * list effect :=
  let reject :=
    set_uploadStatus
      (Some {| status_type := status_error;
               message := "Please select a valid CSV file" |}) s in
  match file with
  | Some f =>
      if String.eqb (type f) "text/csv"
      then (set_uploadError None (set_uploadStatus None (set_selectedFile (Some f) s)), [])
      else (reject, [])
  | None => (reject, [])
  end.

(** [handleFileDrop(event)], with [file = event.dataTransfer.files[0]]. *)
Definition handleFileDrop (file : option File) (s : data) : data * list effect :=
  let s0 := set_isDragover false s in
  let reject :=
    set_uploadStatus
      (Some {| status_type := status_error;
               message := "Please drop a valid CSV file" |}) s0 in
  match file with
  | Some f =>
      if String.eqb (type f) "text/csv"
      then (set_uploadError None (set_uploadStatus None (set_selectedFile (Some f) s0)), [])
      else (reject, [])
  | None => (reject, [])
  end.

(** [previewFile()]: hands the selected file to the CSV parser. *)
Definition previewFile (s : data) : data * list effect :=
  match selectedFile s with
  | None => (s, [])
  | Some f => (s, [PapaParse f])
  end.

(** The [complete] callback of the parser. *)
Definition previewFile_complete (results_data : list row)
    (results_meta_fields : list string) (s : data) : data * list effect :=
  (set_showColumnMapping true
     (set_csvColumns results_meta_fields (set_csvPreviewData results_data s)), []).

(** The [error] callback of the parser. *)
Definition previewFile_error (error_message : string) (s : data) : data * list effect :=
  (set_uploadStatus
     (Some {| status_type := status_error;
              message := "Error parsing CSV file: " +:+ error_message |}) s, []).

(** [cancelMapping()] *)
Definition cancelMapping (s : data) : data * list effect :=
  (set_columnMapping None
     (set_csvColumns [] (set_csvPreviewData [] (set_showColumnMapping false s))), []).

(** [uploadFile()] up to its [await]: the guard, the resets and the
    request. *)
Definition uploadFile_start (s : data) : data * list effect :=
  match selectedFile s, columnMapping s with
  | Some f, Some m =>
      (set_uploadError None (set_uploadStatus None (set_isUploading true s)),
       [PostUpload f m])
  | _, _ => (s, [])
  end.

(** [uploadFile()] after the request succeeded with
    [response.data.records_count = records_count]: the rest of the [try]
    block, then [finally]. *)
Definition uploadFile_resolve (records_count : N) (s : data) : data * list effect :=
  let s1 :=
    set_uploadStatus
      (Some {| status_type := status_success;
               message := "Successfully uploaded " +:+ pretty records_count +:+ " records" |}) s in
  let s2 := set_selectedFile None s1 in
  let s3 := set_columnMapping None s2 in
  (set_isUploading false s3,
   ([Toast JS.success "File uploaded successfully"; SetFileInputValue ""]
    ++ (if refs_businessList then [FetchBusinesses] else []))%list).

(** [uploadFile()] after the request failed: [catch], then [finally]. *)
Definition uploadFile_reject (e : JS.Error) (s : data) : data * list effect :=
  let errorMessage := JS.or_else (JS.response_data_error e) "Error uploading file" in
  (set_isUploading false (set_uploadError (Some errorMessage) s),
   [Toast JS.error_toast errorMessage]).

(** [confirmMapping(mapping)], up to the [await] inside [uploadFile]. *)
Definition confirmMapping (mapping : ColumnMapping.mapping) (s : data) : data * list effect :=
  uploadFile_start (set_showColumnMapping false (set_columnMapping (Some mapping) s)).

(** The status slot of the template:
    [<div v-if="uploadStatus" :class="['status-message', uploadStatus.type]">]
    showing [uploadStatus.message]. *)
Definition status_slot (s : data) : option (StatusType * string) :=
  match uploadStatus s with
  | Some st => Some (status_type st, message st)
  | None => None
  end.

(** [:disabled="!selectedFile || isUploading"] on the upload button. *)
Definition upload_button_disabled (s : data) : bool :=
  match selectedFile s with
  | None => true
  | Some _ => isUploading s
  end.

(** Everything that can happen to the component: user gestures, parser
    callbacks, events of the mapping form and settled upload requests. *)
Inductive event :=
| FileSelect (file : option File)
| FileDrop (file : option File)
| ClickPreview
| ParseComplete (results_data : list row) (results_meta_fields : list string)
| ParseError (error_message : string)
| CancelMapping
| ConfirmMapping (mapping : ColumnMapping.mapping)
| UploadResolved (records_count : N)
| UploadRejected (e : JS.Error).

Definition handle (ev : event) (s : data) : data * list effect :=
  match ev with
  | FileSelect file => handleFileSelect file s
  | FileDrop file => handleFileDrop file s
  | ClickPreview => previewFile s
  | ParseComplete d fs => previewFile_complete d fs s
  | ParseError msg => previewFile_error msg s
  | CancelMapping => cancelMapping s
  | ConfirmMapping m => confirmMapping m s
  | UploadResolved n => uploadFile_resolve n s
  | UploadRejected e => uploadFile_reject e s
  end.

(** The data after a sequence of events and all effects performed, in
    order. *)
Fixpoint run (s : data) (evs : list event) : data * list effect :=
  match evs with
  | [] => (s, [])
  | ev :: evs' =>
      let '(s1, out1) := handle ev s in
      let '(s2, out2) := run s1 evs' in
      (s2, (out1 ++ out2)%list)
  end.

(** The selected file, if any, is CSV-typed. *)
Definition csv_selected (s : data) : Prop :=
  forall f, selectedFile s = Some f -> type f = "text/csv".

(** Every upload request in a list of effects carries a CSV-typed file. *)
Definition csv_uploads (out : list effect) : Prop :=
  forall f m, In (PostUpload f m) out -> type f = "text/csv".

(** Sample inputs: two files and the mapping a user builds for a CSV
    with headers [biz,cat,loc]. *)
Definition sample_csv : File := {| name := "leads.csv"; type := "text/csv" |}.

Definition sample_pdf : File := {| name := "leads.pdf"; type := "application/pdf" |}.

Definition sample_mapping : ColumnMapping.mapping :=
  ColumnMapping.run ["biz"; "cat"; "loc"]
    [ColumnMapping.Select ColumnMapping.business_name "biz";
     ColumnMapping.Select ColumnMapping.industry "cat";
     ColumnMapping.Select ColumnMapping.location "loc"].

(** Does the event store a file, i.e. select or drop a CSV-typed one? *)
Definition selects_csv (ev : event) : bool :=
  match ev with
  | FileSelect (Some f) | FileDrop (Some f) => String.eqb (type f) "text/csv"
  | _ => false
  end.

(** Effects that read the selected file: parsing it and uploading it. *)
Definition uses_file (eff : effect) : bool :=
  match eff with
  | PapaParse _ | PostUpload _ _ => true
  | _ => false
  end.

(** The message of every toast in a list of effects is non-empty. *)
Definition toasts_nonempty (out : list effect) : Prop :=
  Forall (fun eff => match eff with
                     | Toast _ msg => msg <> ""
                     | _ => True
                     end) out.

End App.

(** ** BusinessList.vue: the directory, pagination and website lookup *)

Module BusinessList.

(** A business record as the backend sends it.  Optional members are
    [None] when missing or [null]. *)
Record Business := {
  id : nat;
  business_name : string;
  industry : string;
  industry_display_name : option string;
  location : string;
  city : option string;
  state : option string;
  website : option string }.

Record Filters := {
  f_business_name : string;
  f_industry : string;
  f_location : string }.

Definition no_filters : Filters :=
  {| f_business_name := ""; f_industry := ""; f_location := "" |}.

(** The component data ([columnMappingData], which only feeds the
    placeholders of the filter inputs, is left out). *)
Record data := {
  businesses : list Business;
  loading : bool;
  error : option string;
  filters : Filters;
  currentPage : Z;
  perPage : Z;
  totalPages : Z;
  isSearchingWebsite : option nat;
  isEmailModalOpen : bool;
  selectedBusiness : option Business }.

Definition initial : data := {|
  businesses := []; loading := false; error := None; filters := no_filters;
  currentPage := 1; perPage := 10; totalPages := 1;
  isSearchingWebsite := None; isEmailModalOpen := false; selectedBusiness := None |}.

Definition set_businesses (v : list Business) (s : data) : data :=
  {| businesses := v; loading := loading s; error := error s; filters := filters s;
     currentPage := currentPage s; perPage := perPage s; totalPages := totalPages s;
     isSearchingWebsite := isSearchingWebsite s; isEmailModalOpen := isEmailModalOpen s;
     selectedBusiness := selectedBusiness s |}.

Definition set_loading (v : bool) (s : data) : data :=
  {| businesses := businesses s; loading := v; error := error s; filters := filters s;
     currentPage := currentPage s; perPage := perPage s; totalPages := totalPages s;
     isSearchingWebsite := isSearchingWebsite s; isEmailModalOpen := isEmailModalOpen s;
     selectedBusiness := selectedBusiness s |}.

Definition set_error (v : option string) (s : data) : data :=
  {| businesses := businesses s; loading := loading s; error := v; filters := filters s;
     currentPage := currentPage s; perPage := perPage s; totalPages := totalPages s;
     isSearchingWebsite := isSearchingWebsite s; isEmailModalOpen := isEmailModalOpen s;
     selectedBusiness := selectedBusiness s |}.

Definition set_filters (v : Filters) (s : data) : data :=
  {| businesses := businesses s; loading := loading s; error := error s; filters := v;
     currentPage := currentPage s; perPage := perPage s; totalPages := totalPages s;
     isSearchingWebsite := isSearchingWebsite s; isEmailModalOpen := isEmailModalOpen s;
     selectedBusiness := selectedBusiness s |}.

Definition set_currentPage (v : Z) (s : data) : data :=
  {| businesses := businesses s; loading := loading s; error := error s; filters := filters s;
     currentPage := v; perPage := perPage s; totalPages := totalPages s;
     isSearchingWebsite := isSearchingWebsite s; isEmailModalOpen := isEmailModalOpen s;
     selectedBusiness := selectedBusiness s |}.

Definition set_totalPages (v : Z) (s : data) : data :=
  {| businesses := businesses s; loading := loading s; error := error s; filters := filters s;
     currentPage := currentPage s; perPage := perPage s; totalPages := v;
     isSearchingWebsite := isSearchingWebsite s; isEmailModalOpen := isEmailModalOpen s;
     selectedBusiness := selectedBusiness s |}.

Definition set_isSearchingWebsite (v : option nat) (s : data) : data :=
  {| businesses := businesses s; loading := loading s; error := error s; filters := filters s;
     currentPage := currentPage s; perPage := perPage s; totalPages := totalPages s;
     isSearchingWebsite := v; isEmailModalOpen := isEmailModalOpen s;
     selectedBusiness := selectedBusiness s |}.

(** The query of [GET /businesses]. *)
Record Params := {
  page : Z;
  per_page : Z;
  p_business_name : string;
  p_industry : string;
  p_location : string }.

Inductive effect :=
| Toast (k : JS.ToastKind) (msg : string)
| GetBusinesses (params : Params)
    (* axios.get(`${API_BASE_URL}/businesses`, { params }) *)
| GetWebsite (businessId : nat)
    (* axios.get(`${API_BASE_URL}/businesses/${businessId}/website`) *)
| PostClear.
    (* axios.post(`${API_BASE_URL}/clear`) *)

(** [fetchBusinesses()] up to its [await]. *)
Definition fetchBusinesses_start (s : data) : data * list effect :=
  let s1 := set_error None (set_loading true s) in
  (s1,
   [GetBusinesses
      {| page := currentPage s1; per_page := perPage s1;
         p_business_name := JS.toLowerCase (f_business_name (filters s1));
         p_industry := JS.toLowerCase (f_industry (filters s1));
         p_location := JS.toLowerCase (f_location (filters s1)) |}]).

(** [response.data] of [GET /businesses]. *)
Record Page := { page_businesses : list Business; total_pages : Z }.

(** [fetchBusinesses()] after the request succeeded. *)
Definition fetchBusinesses_resolve (response_data : Page) (s : data) : data * list effect :=
  (set_loading false
     (set_totalPages (total_pages response_data)
        (set_businesses (page_businesses response_data) s)), []).

(** [fetchBusinesses()] after the request failed. *)
Definition fetchBusinesses_reject (e : JS.Error) (s : data) : data * list effect :=
  let errorMessage := JS.or_else (JS.response_data_error e) "Error fetching businesses" in
  (set_loading false (set_error (Some errorMessage) s),
   [Toast JS.error_toast errorMessage]).

(** [changePage(page)] *)
Definition changePage (page : Z) (s : data) : data * list effect :=
  fetchBusinesses_start (set_currentPage page s).

(** [clearData()] after [POST /clear] succeeded. *)
Definition clearData_resolve (s : data) : data * list effect :=
  (set_filters no_filters
     (set_totalPages 1 (set_currentPage 1 (set_businesses [] s))),
   [Toast JS.success "All business data cleared successfully"]).

(** A button of the template: not rendered, or rendered with its
    [disabled] attribute. *)
Inductive control := Absent | Button (disabled : bool).

(** A click reaches the handler only on a rendered, enabled button. *)
Definition operable (c : control) : bool :=
  match c with
  | Button false => true
  | _ => false
  end.

(** [<div class="pagination" v-if="totalPages > 1">] *)
Definition pagination_shown (s : data) : bool := (1 <? totalPages s)%Z.

(** [:disabled="currentPage === 1"] on Previous. *)
Definition previous_disabled (s : data) : bool := (currentPage s =? 1)%Z.

(** [:disabled="currentPage === totalPages"] on Next. *)
Definition next_disabled (s : data) : bool := (currentPage s =? totalPages s)%Z.

Definition previous_control (s : data) : control :=
  if pagination_shown s then Button (previous_disabled s) else Absent.

Definition next_control (s : data) : control :=
  if pagination_shown s then Button (next_disabled s) else Absent.

(** [isSearchingWebsite === business.id] *)
Definition searching (s : data) (business_id : nat) : bool :=
  match isSearchingWebsite s with
  | Some x => Nat.eqb x business_id
  | None => false
  end.

(** The Find Website button of a card: [v-if="!business.website"],
    [:disabled="isSearchingWebsite === business.id"]; it reads
    'Searching...' exactly when it is disabled. *)
Definition find_website_control (s : data) (b : Business) : control :=
  if JS.truthy_opt (website b) then Absent else Button (searching s (id b)).

(** [findWebsite(businessId)] up to its [await]. *)
Definition findWebsite_start (businessId : nat) (s : data) : data * list effect :=
  (set_isSearchingWebsite (Some businessId) s, [GetWebsite businessId]).

(** [findWebsite(businessId)] after the request succeeded with
    [response.data.business = business]: the rest of [try], then
    [finally]. *)
Definition findWebsite_resolve (businessId : nat) (business : Business) (s : data)
    : data * list effect :=
  let '(s1, out) :=
    match JS.findIndex (fun b => Nat.eqb (id b) businessId) (businesses s) with
    | Some index =>
        (set_businesses (<[index := business]> (businesses s)) s,
         if JS.truthy_opt (website business)
         then [Toast JS.success ("Found website for " +:+ business_name business)]
         else [Toast JS.warning ("No website found for " +:+ business_name business)])
    | None => (s, [])
    end in
  (set_isSearchingWebsite None s1, out).

(** [findWebsite(businessId)] after the request failed. *)
Definition findWebsite_reject (businessId : nat) (e : JS.Error) (s : data)
    : data * list effect :=
  let errorMessage := JS.or_else (JS.response_data_error e) "Error finding website" in
  (set_isSearchingWebsite None s, [Toast JS.error_toast errorMessage]).

(** The component together with the lookups whose request has been sent
    and has not settled yet: each is a suspended call of [findWebsite],
    determined by its [businessId]. *)
Record system := { component : data; in_flight : list nat }.

Fixpoint remove_first (x : nat) (l : list nat) : list nat :=
  match l with
  | [] => []
  | y :: l' => if Nat.eqb x y then l' else y :: remove_first x l'
  end.

Inductive lookup_event :=
| Trigger (businessId : nat)
| Fulfilled (businessId : nat) (business : Business)
| Rejected (businessId : nat) (e : JS.Error).

(** One turn of the event loop. *)
Definition step (ev : lookup_event) (sys : system) : system * list effect :=
  match ev with
  | Trigger x =>
      let '(d, out) := findWebsite_start x (component sys) in
      ({| component := d; in_flight := x :: in_flight sys |}, out)
  | Fulfilled x b =>
      let '(d, out) := findWebsite_resolve x b (component sys) in
      ({| component := d; in_flight := remove_first x (in_flight sys) |}, out)
  | Rejected x e =>
      let '(d, out) := findWebsite_reject x e (component sys) in
      ({| component := d; in_flight := remove_first x (in_flight sys) |}, out)
  end.

Definition set_isEmailModalOpen (v : bool) (s : data) : data :=
  {| businesses := businesses s; loading := loading s; error := error s; filters := filters s;
     currentPage := currentPage s; perPage := perPage s; totalPages := totalPages s;
     isSearchingWebsite := isSearchingWebsite s; isEmailModalOpen := v;
     selectedBusiness := selectedBusiness s |}.

Definition set_selectedBusiness (v : option Business) (s : data) : data :=
  {| businesses := businesses s; loading := loading s; error := error s; filters := filters s;
     currentPage := currentPage s; perPage := perPage s; totalPages := totalPages s;
     isSearchingWebsite := isSearchingWebsite s; isEmailModalOpen := isEmailModalOpen s;
     selectedBusiness := v |}.

(** Typing in a filter input: [v-model] stores the text, then
    [@input="fetchBusinesses"] runs.  The current page is not touched. *)
Definition input_business_name (v : string) (s : data) : data * list effect :=
  fetchBusinesses_start
    (set_filters {| f_business_name := v; f_industry := f_industry (filters s);
                    f_location := f_location (filters s) |} s).

Definition input_industry (v : string) (s : data) : data * list effect :=
  fetchBusinesses_start
    (set_filters {| f_business_name := f_business_name (filters s); f_industry := v;
                    f_location := f_location (filters s) |} s).

Definition input_location (v : string) (s : data) : data * list effect :=
  fetchBusinesses_start
    (set_filters {| f_business_name := f_business_name (filters s);
                    f_industry := f_industry (filters s); f_location := v |} s).

(** A click on Previous: [@click="changePage(currentPage - 1)"]. *)
Definition click_previous (s : data) : data * list effect :=
  if operable (previous_control s) then changePage (currentPage s - 1) s else (s, []).

(** A click on Next: [@click="changePage(currentPage + 1)"]. *)
Definition click_next (s : data) : data * list effect :=
  if operable (next_control s) then changePage (currentPage s + 1) s else (s, []).

(** [v-if="businesses.length > 0"] on the Clear All Data button. *)
Definition clear_button_shown (s : data) : bool := (0 <? List.length (businesses s))%nat.

(** [clearData()] up to its [await]. *)
Definition clearData_start (s : data) : data * list effect := (s, [PostClear]).

(** [clearData()] after [POST /clear] failed. *)
Definition clearData_reject (e : JS.Error) (s : data) : data * list effect :=
  (s, [Toast JS.error_toast (JS.or_else (JS.response_data_error e) "Error clearing data")]).

(** [confirmClear()], with the answer the user gives to [confirm(...)]. *)
Definition confirmClear (confirmed : bool) (s : data) : data * list effect :=
  if confirmed then clearData_start s else (s, []).

(** What the template shows below the filters: [v-if="loading"],
    [v-else-if="error"], [v-else-if="businesses.length === 0"], [v-else]
    the grid with one card per business. *)
Inductive list_view :=
| ViewLoading
| ViewError (msg : string)
| ViewNoData
| ViewGrid (cards : list Business).

Definition view (s : data) : list_view :=
  if loading s then ViewLoading
  else match error s with
       | Some msg =>
           if JS.truthy msg then ViewError msg
           else if (List.length (businesses s) =? 0)%nat then ViewNoData
                else ViewGrid (businesses s)
       | None =>
           if (List.length (businesses s) =? 0)%nat then ViewNoData
           else ViewGrid (businesses s)
       end.

(** [openEmailModal(business)]; [{ ...business }] is a copy with the same
    members. *)
Definition openEmailModal (business : Business) (s : data) : data :=
  set_isEmailModalOpen true (set_selectedBusiness (Some business) s).

(** [closeEmailModal()] *)
Definition closeEmailModal (s : data) : data :=
  set_selectedBusiness None (set_isEmailModalOpen false s).

(** [<EmailModal v-if="selectedBusiness" :show="isEmailModalOpen"
    :business="selectedBusiness" />]: the props of the modal when it is
    rendered. *)
Definition email_modal_props (s : data) : option (bool * Business) :=
  match selectedBusiness s with
  | Some b => Some (isEmailModalOpen s, b)
  | None => None
  end.

(** The system after a sequence of turns. *)
Definition run_lookups (sys : system) (evs : list lookup_event) : system :=
  fold_left (fun x ev => fst (step ev x)) evs sys.

(** Sample inputs: two records without a website and a backend answer
    for the first one. *)
Definition sample_business (i : nat) (n : string) (w : option string) : Business :=
  {| id := i; business_name := n; industry := "Food"; industry_display_name := None;
     location := "Chicago"; city := None; state := None; website := w |}.

Definition sample_system : system :=
  {| component :=
       set_businesses [sample_business 1 "Acme" None; sample_business 2 "Bakery" None]
         initial;
     in_flight := [] |}.

End BusinessList.

(** ** EmailModal: the email generator *)

Module EmailModal.

Record data := { email : string; loading : bool; error : option string }.

Definition initial : data := {| email := ""; loading := false; error := None |}.

Inductive effect :=
| Toast (k : JS.ToastKind) (msg : string)
| PostGenerateEmail (business_id : nat) (user_prompt_template : string).
    (* axios.post(`${API_BASE_URL}/generate_email`, requestData) *)

Definition user_prompt_template : string :=
  "Focus on offering modern, responsive web design services that will help their business grow online.".

(** [generateEmail()] up to its [await]. *)
Definition generateEmail_start (business : BusinessList.Business) (s : data)
    : data * list effect :=
  ({| email := email s; loading := true; error := None |},
   [PostGenerateEmail (BusinessList.id business) user_prompt_template]).

(** The [catch] clause followed by [finally]. *)
Definition generateEmail_catch (e : JS.Error) (s : data) : data * list effect :=
  let msg :=
    JS.or_else (JS.response_data_error e)
      (JS.or_else (Some (JS.message e)) "Error generating email") in
  ({| email := email s; loading := false; error := Some msg |},
   [Toast JS.error_toast msg]).

(** [new Error(msg)]: no [response], the given [message]. *)
Definition new_Error (msg : string) : JS.Error :=
  {| JS.response := None; JS.message := msg |}.

(** [generateEmail()] after the request succeeded (a 2xx answer) with
    [response.data.email = response_data_email]: the rest of [try], whose
    [throw] is caught by the method's own [catch]. *)
Definition generateEmail_resolve (response_data_email : option string) (s : data)
    : data * list effect :=
  match response_data_email with
  | Some e =>
      if JS.truthy e
      then ({| email := e; loading := false; error := error s |}, [])
      else generateEmail_catch (new_Error "No email content in response") s
  | None => generateEmail_catch (new_Error "No email content in response") s
  end.

(** [generateEmail()] after the request failed. *)
Definition generateEmail_reject (e : JS.Error) (s : data) : data * list effect :=
  generateEmail_catch e s.

(** The body of the modal: [v-if="loading"], [v-else-if="error"],
    [v-else] with the email text. *)
Inductive body := Loading | ErrorText (msg : string) | EmailContent (text : string).

Definition modal_body (s : data) : body :=
  if loading s then Loading
  else match error s with
       | Some msg => if JS.truthy msg then ErrorText msg else EmailContent (email s)
       | None => EmailContent (email s)
       end.

(** The states of the generator named in the design. *)
Inductive generator_state := generating | errored | displayed.

Definition state_of (s : data) : generator_state :=
  match modal_body s with
  | Loading => generating
  | ErrorText _ => errored
  | EmailContent _ => displayed
  end.

(** The [show] watcher ([immediate: true]): its handler runs with the
    value of the prop when the component is created and again whenever
    the prop changes. *)
Definition watch_show (newVal : bool) (business : BusinessList.Business) (s : data)
    : data * list effect :=
  if newVal then generateEmail_start business s else (s, []).

(** The component right after its creation with the given props. *)
Definition created (show : bool) (business : BusinessList.Business)
    : data * list effect :=
  watch_show show business initial.

(** The error of a rejected request whose response body is
    [{error: x}]. *)
Definition backend_error (x : string) (status_message : string) : JS.Error :=
  {| JS.response := Some {| JS.data := Some {| JS.error := Some x |} |};
     JS.message := status_message |}.

(** Sample data: a modal that displays a generated email. *)
Definition sample_displayed : data :=
  {| email := "Dear Acme, ..."; loading := false; error := None |}.

Definition sample_business : BusinessList.Business :=
  BusinessList.sample_business 1 "Acme" None.

End EmailModal.

(** ** App.vue together with the mapping form it renders *)

Module Session.

(** The data of [App] and, while [<ColumnMapping v-if="showColumnMapping">]
    is rendered, the data of that component. *)
Record session := { app : App.data; form : option ColumnMapping.mapping }.

Definition initial : session := {| app := App.initial; form := None |}.

(** [v-if]: the form is created with its initial data when the flag
    turns true, kept while it stays true and destroyed when it turns
    false. *)
Definition remount (s : App.data) (form : option ColumnMapping.mapping)
    : option ColumnMapping.mapping :=
  if App.showColumnMapping s
  then Some (match form with
             | Some m => m
             | None => ColumnMapping.initial
             end)
  else None.

Definition lift (r : App.data * list App.effect) (form : option ColumnMapping.mapping)
    : session * list App.effect :=
  ({| app := fst r; form := remount (fst r) form |}, snd r).

(** What can happen: the events of [App] that do not come from the form,
    the user's actions on the form and clicks on its two buttons. *)
Inductive event :=
| FileSelect (file : option App.File)
| FileDrop (file : option App.File)
| ClickPreview
| ParseComplete (results_data : list App.row) (results_meta_fields : list string)
| ParseError (error_message : string)
| UploadResolved (records_count : N)
| UploadRejected (e : JS.Error)
| FormAction (a : ColumnMapping.action)
| ClickConfirm
| ClickCancel.

(** The form receives [:csv-columns="csvColumns"]; [@confirm] and
    [@cancel] call [confirmMapping] and [cancelMapping].  The upload
    button ignores clicks while it is disabled. *)
Definition handle (ev : event) (x : session) : session * list App.effect :=
  match ev with
  | FileSelect file => lift (App.handleFileSelect file (app x)) (form x)
  | FileDrop file => lift (App.handleFileDrop file (app x)) (form x)
  | ClickPreview =>
      if App.upload_button_disabled (app x) then (x, [])
      else lift (App.previewFile (app x)) (form x)
  | ParseComplete d fs => lift (App.previewFile_complete d fs (app x)) (form x)
  | ParseError msg => lift (App.previewFile_error msg (app x)) (form x)
  | UploadResolved n => lift (App.uploadFile_resolve n (app x)) (form x)
  | UploadRejected e => lift (App.uploadFile_reject e (app x)) (form x)
  | FormAction a =>
      match form x with
      | Some m =>
          ({| app := app x;
              form := Some (ColumnMapping.act (App.csvColumns (app x)) m a) |}, [])
      | None => (x, [])
      end
  | ClickConfirm =>
      match form x with
      | Some m =>
          match ColumnMapping.confirm m with
          | ColumnMapping.EmitConfirm m' :: _ =>
              lift (App.confirmMapping m' (app x)) (form x)
          | _ => (x, [])
          end
      | None => (x, [])
      end
  | ClickCancel =>
      match form x with
      | Some _ => lift (App.cancelMapping (app x)) (form x)
      | None => (x, [])
      end
  end.

Fixpoint run (x : session) (evs : list event) : session * list App.effect :=
  match evs with
  | [] => (x, [])
  | ev :: evs' =>
      let '(x1, out1) := handle ev x in
      let '(x2, out2) := run x1 evs' in
      (x2, (out1 ++ out2)%list)
  end.

(** The selected file is CSV-typed and the rendered form, if any, has no
    header assigned twice. *)
Definition well_formed (x : session) : Prop :=
  App.csv_selected (app x)
  /\ forall m, form x = Some m -> ColumnMapping.no_duplicates m.

(** All headers the parser reported in a sequence of events. *)
Fixpoint parsed_headers (evs : list event) : list string :=
  match evs with
  | [] => []
  | ParseComplete _ fs :: evs' => (fs ++ parsed_headers evs')%list
  | _ :: evs' => parsed_headers evs'
  end.

(** The headers passed to the form and the columns held by the form all
    come from the list [H]. *)
Definition within (H : list string) (x : session) : Prop :=
  (forall c, c ∈ App.csvColumns (app x) -> c ∈ H)
  /\ (forall m f, form x = Some m ->
                  ColumnMapping.column (ColumnMapping.get m f) = ""
                  \/ ColumnMapping.column (ColumnMapping.get m f) ∈ H).

(** Opening the form on a file with the given rows and headers. *)
Definition open_form (d : list App.row) (fs : list string) : list event :=
  [FileSelect (Some App.sample_csv); ClickPreview; ParseComplete d fs].

(** A sample session in which a second file is parsed while the form,
    filled on the first one, is still open. *)
Definition sample_reparse : list event :=
  (open_form [] ["biz"; "cat"; "loc"]
   ++ [FormAction (ColumnMapping.Select ColumnMapping.business_name "biz");
       FileSelect (Some {| App.name := "other.csv"; App.type := "text/csv" |});
       ClickPreview;
       ParseComplete [] ["x"]])%list.

(** A well-formed upload request: a CSV-typed file and a mapping with
    three non-empty, pairwise different columns. *)
Definition upload_ok (f : App.File) (m : ColumnMapping.mapping) : Prop :=
  App.type f = "text/csv"
  /\ ColumnMapping.isMappingValid m = true
  /\ NoDup (ColumnMapping.columns m).

(** A sample session: a CSV is selected and parsed, the three fields are
    mapped and the mapping is confirmed. *)
Definition sample_events : list event :=
  [FileSelect (Some App.sample_csv);
   ClickPreview;
   ParseComplete [] ["biz"; "cat"; "loc"];
   FormAction (ColumnMapping.Select ColumnMapping.business_name "biz");
   FormAction (ColumnMapping.Select ColumnMapping.industry "biz");
   FormAction (ColumnMapping.Select ColumnMapping.industry "cat");
   FormAction (ColumnMapping.Select ColumnMapping.location "loc");
   ClickConfirm].

End Session.

(** * Properties *)

(** ** The column mapping form *)

Section ColumnMappingFacts.

Import ColumnMapping.

Lemma truthy_true (s : string) : JS.truthy s = true <-> s <> "".
Proof.
  unfold JS.truthy. destruct (String.eqb_spec s ""); simpl; split; congruence.
Qed.

Lemma isMappingValid_spec (m : mapping) :
  isMappingValid m = true <-> forall f, column (get m f) <> "".
Proof.
  unfold isMappingValid, requiredFields. simpl.
  rewrite !andb_true_iff, !truthy_true. split.
  - intros (Hb & Hi & Hl & _) f. destruct f; assumption.
  - intros H. repeat split.
    + apply (H business_name).
    + apply (H industry).
    + apply (H location).
Qed.

Lemma column_set_displayName (m : mapping) (f g : field) (s : string) :
  column (get (set_displayName m f s) g) = column (get m g).
Proof. destruct f, g; reflexivity. Qed.

Lemma column_set_column (m : mapping) (f g : field) (c : string) :
  column (get (set_column m f c) g) = if field_eqb f g then c else column (get m g).
Proof. destruct f, g; reflexivity. Qed.

Lemma field_eqb_spec (a b : field) : reflect (a = b) (field_eqb a b).
Proof. destruct a, b; simpl; constructor; congruence. Qed.

Lemma isColumnMapped_spec (m : mapping) (c : string) :
  isColumnMapped m c = true <-> exists f, column (get m f) = c.
Proof.
  unfold isColumnMapped, values. simpl.
  rewrite !orb_true_iff, !String.eqb_eq. split.
  - intros [H | [H | [H | H]]].
    + exists business_name. exact H.
    + exists industry. exact H.
    + exists location. exact H.
    + discriminate H.
  - intros [f H]. destruct f; simpl in H; tauto.
Qed.

(** The selector of a field never disables that field's own selection. *)
Lemma own_selection_enabled (m : mapping) (f : field) :
  option_disabled m f (column (get m f)) = false.
Proof.
  unfold option_disabled. rewrite String.eqb_refl. apply andb_false_r.
Qed.

(** A header held by some field is disabled in the selector of every
    field that holds another value. *)
Lemma held_elsewhere_disabled (m : mapping) (f g : field) (h : string) :
  column (get m f) = h -> column (get m g) <> h -> option_disabled m g h = true.
Proof.
  intros Hf Hg. unfold option_disabled. apply andb_true_iff. split.
  - apply isColumnMapped_spec. exists f. exact Hf.
  - apply negb_true_iff. apply String.eqb_neq. exact Hg.
Qed.

Lemma no_duplicates_initial : no_duplicates initial.
Proof. intros f g _ _. destruct f; reflexivity. Qed.

Lemma no_duplicates_act (cols : list string) (m : mapping) (a : action) :
  no_duplicates m -> no_duplicates (act cols m a).
Proof.
  intros Hm. destruct a as [f c | f s]; cbn [act].
  - destruct (selectable cols m f c) eqn:Hsel; [| exact Hm].
    intros a b Hab. rewrite !column_set_column.
    destruct (field_eqb_spec f a) as [-> | Hfa], (field_eqb_spec a b) as [-> | _];
      try congruence.
    + (* a was just set to c, b is another field *)
      destruct (field_eqb_spec a b) as [-> | Hne]; [congruence |].
      intros Hc. unfold selectable in Hsel.
      apply orb_true_iff in Hsel. destruct Hsel as [He | Hen].
      * apply String.eqb_eq in He. exact He.
      * apply andb_true_iff in Hen. destruct Hen as [_ Hen].
        apply negb_true_iff in Hen. unfold option_disabled in Hen.
        apply andb_false_iff in Hen. destruct Hen as [Hnm | Hown].
        -- exfalso. assert (isColumnMapped m c = true) as Hy.
           { apply isColumnMapped_spec. exists b. symmetry. exact Hc. }
           congruence.
        -- apply negb_false_iff, String.eqb_eq in Hown.
           rewrite <- Hown in Hc. rewrite <- Hown.
           apply (Hm a b Hne Hc).
    + destruct (field_eqb_spec f b) as [-> | Hfb].
      * (* b was just set to c, a is another field *)
        intros Hc. unfold selectable in Hsel.
        apply orb_true_iff in Hsel. destruct Hsel as [He | Hen].
        -- apply String.eqb_eq in He. congruence.
        -- apply andb_true_iff in Hen. destruct Hen as [_ Hen].
           apply negb_true_iff in Hen. unfold option_disabled in Hen.
           apply andb_false_iff in Hen. destruct Hen as [Hnm | Hown].
           ++ exfalso. assert (isColumnMapped m c = true) as Hy.
              { apply isColumnMapped_spec. exists a. exact Hc. }
              congruence.
           ++ apply negb_false_iff, String.eqb_eq in Hown.
              rewrite <- Hown in Hc.
              apply (Hm a b Hab Hc).
      * apply (Hm a b Hab).
  - intros a b Hab. rewrite !column_set_displayName. apply (Hm a b Hab).
Qed.

Lemma no_duplicates_fold (cols : list string) (acts : list action) (m : mapping) :
  no_duplicates m -> no_duplicates (fold_left (act cols) acts m).
Proof.
  revert m. induction acts as [| a acts IH]; intros m Hm; simpl.
  - exact Hm.
  - apply IH. apply no_duplicates_act. exact Hm.
Qed.

Lemma no_duplicates_run (cols : list string) (acts : list action) :
  no_duplicates (run cols acts).
Proof. apply no_duplicates_fold, no_duplicates_initial. Qed.

(** C2. The Confirm button is enabled exactly when each of the three
    required fields has a non-empty source column; [confirm()] emits the
    mapping under the same condition and nothing otherwise; and editing a
    display label, even to the empty text, never changes whether Confirm
    is enabled. *)
Theorem confirm_enabled_iff_columns_selected (m : mapping) :
  (confirm_disabled m = false <->
     column (get m business_name) <> "" /\
     column (get m industry) <> "" /\
     column (get m location) <> "")
  /\ confirm m = (if confirm_disabled m then [] else [EmitConfirm m])
  /\ (forall f label,
        confirm_disabled (set_displayName m f label) = confirm_disabled m).
Proof.
  split; [| split].
  - unfold confirm_disabled. rewrite negb_false_iff, isMappingValid_spec. split.
    + intros H. repeat split; apply H.
    + intros (Hb & Hi & Hl) f. destruct f; assumption.
  - unfold confirm, confirm_disabled. destruct (isMappingValid m); reflexivity.
  - intros f label. unfold confirm_disabled, isMappingValid, requiredFields.
    cbn [forallb]. rewrite !column_set_displayName. reflexivity.
Qed.

(** C3. In any state the form can reach through user actions, a header
    [h] selected as the source column of field [A] is disabled in the
    selector of every other field [B] and stays enabled in the selector
    of [A] itself. *)
Theorem assigned_header_disabled_elsewhere
    (availableColumns : list string) (acts : list action)
    (A B : field) (h : string) :
  A <> B ->
  h <> "" ->
  column (get (run availableColumns acts) A) = h ->
  option_disabled (run availableColumns acts) B h = true
  /\ option_disabled (run availableColumns acts) A h = false.
Proof.
  intros HAB Hh HA. split.
  - apply (held_elsewhere_disabled _ A B h HA).
    intros HB. apply Hh. rewrite <- HA.
    apply (no_duplicates_run availableColumns acts A B HAB). congruence.
  - rewrite <- HA. apply own_selection_enabled.
Qed.

Lemma assigned_header_disabled_elsewhere_witness :
  option_disabled
    (run ["biz"; "cat"; "loc"] [Select business_name "biz"; Select industry "biz"])
    industry "biz" = true
  /\ option_disabled
    (run ["biz"; "cat"; "loc"] [Select business_name "biz"; Select industry "biz"])
    business_name "biz" = false.
Proof.
  apply (assigned_header_disabled_elsewhere
           ["biz"; "cat"; "loc"]
           [Select business_name "biz"; Select industry "biz"]
           business_name industry "biz").
  - discriminate.
  - discriminate.
  - reflexivity.
Defined.

End ColumnMappingFacts.

(** ** Upload *)

Section AppFacts.

Import App.

Lemma csv_selected_handle (ev : event) (s : data) :
  csv_selected s -> csv_selected (fst (handle ev s)).
Proof.
  unfold csv_selected. intros Hs f.
  destruct ev as [file | file | | d fs | msg | | m | n | e]; simpl.
  - unfold handleFileSelect. destruct file as [f0 |]; [| apply Hs].
    destruct (String.eqb_spec (type f0) "text/csv"); simpl; [| apply Hs].
    intros [= <-]. assumption.
  - unfold handleFileDrop. destruct file as [f0 |]; [| apply Hs].
    destruct (String.eqb_spec (type f0) "text/csv"); simpl; [| apply Hs].
    intros [= <-]. assumption.
  - unfold previewFile. destruct (selectedFile s) eqn:E; simpl; intros H; apply Hs; congruence.
  - apply Hs.
  - apply Hs.
  - apply Hs.
  - unfold confirmMapping, uploadFile_start. simpl.
    destruct (selectedFile s) eqn:E; simpl; intros H; apply Hs; congruence.
  - intros H. discriminate H.
  - apply Hs.
Qed.

Lemma csv_uploads_handle (ev : event) (s : data) :
  csv_selected s -> csv_uploads (snd (handle ev s)).
Proof.
  unfold csv_selected, csv_uploads. intros Hs f m.
  destruct ev as [file | file | | d fs | msg | | m0 | n | e]; simpl.
  - unfold handleFileSelect. destruct file as [f0 |]; [| intros []].
    destruct (String.eqb (type f0) "text/csv"); intros [].
  - unfold handleFileDrop. destruct file as [f0 |]; [| intros []].
    destruct (String.eqb (type f0) "text/csv"); intros [].
  - unfold previewFile. destruct (selectedFile s); simpl; [| intros []].
    intros [H | []]. discriminate H.
  - intros [].
  - intros [].
  - intros [].
  - unfold confirmMapping, uploadFile_start. simpl.
    destruct (selectedFile s) as [f0 |] eqn:Hf; simpl; [| intros []].
    intros [[= <- _] | []]. apply Hs. reflexivity.
  - intros [H | [H | [H | []]]]; discriminate H.
  - intros [H | []]. discriminate H.
Qed.

Lemma csv_uploads_run (evs : list event) (s : data) :
  csv_selected s -> csv_uploads (snd (run s evs)).
Proof.
  revert s. induction evs as [| ev evs IH]; intros s Hs; simpl.
  - intros f m [].
  - pose proof (csv_selected_handle ev s Hs) as H1.
    pose proof (csv_uploads_handle ev s Hs) as H2.
    destruct (handle ev s) as [s1 out1]. simpl in H1, H2.
    specialize (IH s1 H1). destruct (run s1 evs) as [s2 out2]. simpl in *.
    intros f m Hin. apply in_app_or in Hin. destruct Hin as [Hin | Hin].
    + apply (H2 f m Hin).
    + apply (IH f m Hin).
Qed.

Lemma csv_selected_initial : csv_selected initial.
Proof. intros f H. discriminate H. Qed.

Lemma append_inj_l (p a b : string) : p +:+ a = p +:+ b -> a = b.
Proof.
  induction p as [| c p IH]; simpl; intros H; [exact H |].
  injection H as H. apply IH, H.
Qed.

Lemma length_append (a b : string) :
  String.length (a +:+ b) = (String.length a + String.length b)%nat.
Proof. induction a as [| c a IH]; simpl; [reflexivity | rewrite IH; reflexivity]. Qed.

Lemma append_inj_r (a b q : string) : a +:+ q = b +:+ q -> a = b.
Proof.
  intros H.
  assert (String.length a = String.length b) as Hl.
  { apply (f_equal String.length) in H. rewrite !length_append in H. lia. }
  revert b H Hl.
  induction a as [| c a IH]; intros [| c' b] H Hl; simpl in *;
    try discriminate; [reflexivity |].
  injection H as -> H. f_equal. apply IH; [exact H | lia].
Qed.

(** The report of a successful upload determines the count. *)
Lemma upload_report_inj (n n' : N) :
  "Successfully uploaded " +:+ pretty n +:+ " records"
  = "Successfully uploaded " +:+ pretty n' +:+ " records" -> n = n'.
Proof.
  intros H. apply append_inj_l, append_inj_r in H. apply (inj pretty). exact H.
Qed.

(** A failed upload leaves the status slot as [uploadFile] cleared it and
    only raises a toast. *)
Lemma uploadFile_reject_status (e : JS.Error) (s : data) :
  uploadStatus (fst (uploadFile_reject e s)) = uploadStatus s
  /\ snd (uploadFile_reject e s)
     = [Toast JS.error_toast
          (JS.or_else (JS.response_data_error e) "Error uploading file")].
Proof. split; reflexivity. Qed.

(** C5, as stated, fails: after a successful upload of 3 records the
    upload status is not reset, the status slot shows the success report. *)
Lemma upload_success_status_not_reset :
  let s := fst (run initial [FileSelect (Some sample_csv);
                             ConfirmMapping sample_mapping;
                             UploadResolved 3]) in
  status_slot s = Some (status_success, "Successfully uploaded 3 records")
  /\ uploadStatus s <> uploadStatus initial.
Proof. split; [reflexivity | discriminate]. Qed.

(** C5, amended.  An upload started for file [f] with mapping [m] sends
    one request and clears the upload status while it is in flight.  When
    the request succeeds with count [n], whatever the data then is, the
    upload status becomes a success status whose message reports [n]
    (another count gives another status), the selected file and the column
    mapping are reset, the uploading flag is cleared, the file input is
    emptied and the directory is told to refresh. *)
Theorem upload_success_resets_form
    (f : File) (m : ColumnMapping.mapping) (n : N) (s0 s : data) :
  (let started := confirmMapping m (set_selectedFile (Some f) s0) in
   snd started = [PostUpload f m]
   /\ uploadStatus (fst started) = None
   /\ isUploading (fst started) = true)
  /\ (let done := uploadFile_resolve n s in
      uploadStatus (fst done)
      = Some {| status_type := status_success;
                message := "Successfully uploaded " +:+ pretty n +:+ " records" |}
      /\ selectedFile (fst done) = None
      /\ columnMapping (fst done) = None
      /\ isUploading (fst done) = false
      /\ snd done = [Toast JS.success "File uploaded successfully";
                     SetFileInputValue ""; FetchBusinesses]
      /\ (forall n', uploadStatus (fst (uploadFile_resolve n' s))
                     = uploadStatus (fst done) -> n' = n)).
Proof.
  split; [repeat split |].
  cbv zeta. repeat (split; [reflexivity |]).
  intros n' H.
  cbv [uploadFile_resolve fst uploadStatus set_isUploading set_columnMapping
       set_selectedFile set_uploadStatus] in H.
  apply (upload_report_inj n' n). congruence.
Qed.

(** C6 on a concrete run: the upload is rejected with the payload
    [{error: "Missing required columns"}]; the message reaches the toast
    but the status slot stays empty. *)
Lemma upload_failure_not_shown_inline :
  let e := {| JS.response :=
                Some {| JS.data := Some {| JS.error := Some "Missing required columns" |} |};
              JS.message := "Request failed with status code 400" |} in
  let r := run initial [FileSelect (Some sample_csv);
                        ConfirmMapping sample_mapping;
                        UploadRejected e] in
  status_slot (fst r) = None
  /\ uploadError (fst r) = Some "Missing required columns"
  /\ snd r = [PostUpload sample_csv sample_mapping;
              Toast JS.error_toast "Missing required columns"].
Proof. repeat split. Qed.

(** C7. A file whose MIME type is not [text/csv] is rejected when it is
    selected or dropped: the selected file stays what it was, the status
    slot shows the error message and nothing is sent; and whatever happens
    afterwards, no upload request ever carries that file. *)
Theorem non_csv_file_never_uploaded (f : File) :
  type f <> "text/csv" ->
  (forall s,
     selectedFile (fst (handleFileSelect (Some f) s)) = selectedFile s
     /\ status_slot (fst (handleFileSelect (Some f) s))
        = Some (status_error, "Please select a valid CSV file")
     /\ snd (handleFileSelect (Some f) s) = [])
  /\ (forall s,
     selectedFile (fst (handleFileDrop (Some f) s)) = selectedFile s
     /\ status_slot (fst (handleFileDrop (Some f) s))
        = Some (status_error, "Please drop a valid CSV file")
     /\ snd (handleFileDrop (Some f) s) = [])
  /\ (forall evs m, ~ In (PostUpload f m) (snd (run initial evs))).
Proof.
  intros Hf.
  assert (String.eqb (type f) "text/csv" = false) as Hb
    by (apply String.eqb_neq; exact Hf).
  split; [| split].
  - intros s. unfold handleFileSelect. rewrite Hb. repeat split.
  - intros s. unfold handleFileDrop. rewrite Hb. repeat split.
  - intros evs m Hin. apply Hf.
    apply (csv_uploads_run evs initial csv_selected_initial f m Hin).
Qed.

Lemma non_csv_file_never_uploaded_witness :
  type sample_pdf <> "text/csv"
  /\ status_slot (fst (handleFileSelect (Some sample_pdf) initial))
     = Some (status_error, "Please select a valid CSV file")
  /\ ~ In (PostUpload sample_pdf sample_mapping)
          (snd (run initial [FileSelect (Some sample_csv);
                             FileDrop (Some sample_pdf);
                             ConfirmMapping sample_mapping])).
Proof.
  assert (type sample_pdf <> "text/csv") as Hne by discriminate.
  destruct (non_csv_file_never_uploaded sample_pdf Hne) as (Hsel & _ & Hrun).
  split; [exact Hne | split].
  - apply (Hsel initial).
  - apply Hrun.
Defined.

End AppFacts.

(** ** The business directory *)

Section BusinessListFacts.

Import BusinessList.

Lemma findIndex_Some {A : Type} (p : A -> bool) (l : list A) (i : nat) :
  JS.findIndex p l = Some i -> exists x, l !! i = Some x /\ p x = true.
Proof.
  revert i. induction l as [| y l IH]; intros i; simpl.
  - discriminate.
  - destruct (p y) eqn:Hp.
    + intros [= <-]. exists y. split; [reflexivity | exact Hp].
    + destruct (JS.findIndex p l) as [j |]; simpl; [| discriminate].
      intros [= <-]. destruct (IH j eq_refl) as (x & Hx & Hpx).
      exists x. split; assumption.
Qed.

Lemma findIndex_found {A : Type} (p : A -> bool) (l : list A) (x : A) :
  x ∈ l -> p x = true -> exists i, JS.findIndex p l = Some i.
Proof.
  induction 1 as [x l | x y l _ IH]; intros Hp; simpl.
  - rewrite Hp. exists 0%nat. reflexivity.
  - destruct (p y); [exists 0%nat; reflexivity |].
    destruct (IH Hp) as [i ->]. exists (S i). reflexivity.
Qed.

(** C4. When a page response carrying [total_pages = N] arrives while the
    current page [p] is between 1 and [N], the [disabled] binding of Next
    holds exactly when [p = N] and that of Previous exactly when [p = 1];
    and, counting that the navigation bar is only rendered for [N > 1],
    Next cannot be used exactly when [p = N] and Previous exactly when
    [p = 1]. *)
Theorem pagination_disabled_at_boundaries (response_data : Page) (s : data) :
  (1 <= currentPage s <= total_pages response_data)%Z ->
  let s' := fst (fetchBusinesses_resolve response_data s) in
  totalPages s' = total_pages response_data
  /\ currentPage s' = currentPage s
  /\ (next_disabled s' = true <-> currentPage s = total_pages response_data)
  /\ (previous_disabled s' = true <-> currentPage s = 1%Z)
  /\ (operable (next_control s') = false <-> currentPage s = total_pages response_data)
  /\ (operable (previous_control s') = false <-> currentPage s = 1%Z).
Proof.
  intros Hp s'. subst s'.
  unfold next_control, previous_control, next_disabled, previous_disabled,
    pagination_shown. simpl.
  set (p := currentPage s) in *. set (n := total_pages response_data) in *.
  split; [reflexivity | split; [reflexivity |]].
  split; [apply Z.eqb_eq | split; [apply Z.eqb_eq |]].
  split.
  - destruct (Z.ltb_spec 1 n), (Z.eqb_spec p n); simpl; split;
      intros; try congruence; try lia.
  - destruct (Z.ltb_spec 1 n), (Z.eqb_spec p 1); simpl; split;
      intros; try congruence; try lia.
Qed.

Lemma pagination_disabled_at_boundaries_witness :
  let s := set_currentPage 3 initial in
  let r := {| page_businesses := []; total_pages := 3 |} in
  (1 <= currentPage s <= total_pages r)%Z
  /\ next_control (fst (fetchBusinesses_resolve r s)) = Button true
  /\ previous_control (fst (fetchBusinesses_resolve r s)) = Button false
  /\ (operable (next_control (fst (fetchBusinesses_resolve r s))) = false
      <-> currentPage s = total_pages r).
Proof.
  intros s r.
  assert (1 <= currentPage s <= total_pages r)%Z as H by (simpl; lia).
  split; [exact H | split; [reflexivity | split; [reflexivity |]]].
  apply (pagination_disabled_at_boundaries r s H).
Defined.

(** C1, as stated, fails.  With lookups triggered for record 2 and then
    for record 1, record 2 stops showing busy while its lookup is still in
    flight; and when the lookup of record 2 completes, record 1 stops
    showing busy while its own lookup is still in flight. *)
Lemma lookup_busy_state_is_shared :
  let sys2 := fst (step (Trigger 2) sample_system) in
  let sys21 := fst (step (Trigger 1) sys2) in
  let sys1 := fst (step (Fulfilled 2 (sample_business 2 "Bakery" None)) sys21) in
  (searching (component sys2) 2 = true
   /\ in_flight sys21 = [1; 2]%nat
   /\ searching (component sys21) 2 = false)
  /\ (searching (component sys21) 1 = true
      /\ in_flight sys1 = [1]%nat
      /\ searching (component sys1) 1 = false).
Proof. repeat split. Qed.

(** C1, amended.  Triggering a lookup for a record is never blocked by a
    lookup in flight for another record: its request is sent and the
    others stay in flight.  The busy indication is one shared slot: after
    a lookup is triggered for [X], exactly [X] shows busy (among the
    records without a website, only the button of [X] is disabled), and
    after any lookup completes, with a result or with a failure, no record
    shows busy, whichever lookups remain in flight. *)
Theorem lookup_busy_slot (sys : system) (X : nat) :
  (let r := step (Trigger X) sys in
   snd r = [GetWebsite X]
   /\ in_flight (fst r) = X :: in_flight sys
   /\ (forall Z, searching (component (fst r)) Z = Nat.eqb X Z)
   /\ (forall b, find_website_control (component (fst r)) b
                 = if JS.truthy_opt (website b) then Absent
                   else Button (Nat.eqb X (id b))))
  /\ (forall business,
        let r := step (Fulfilled X business) sys in
        in_flight (fst r) = remove_first X (in_flight sys)
        /\ forall Z, searching (component (fst r)) Z = false)
  /\ (forall e,
        let r := step (Rejected X e) sys in
        in_flight (fst r) = remove_first X (in_flight sys)
        /\ forall Z, searching (component (fst r)) Z = false).
Proof.
  split; [| split].
  - repeat split.
  - intros business. unfold step, findWebsite_resolve.
    destruct (JS.findIndex _ _); repeat split.
  - intros e. repeat split.
Qed.

(** C8, as stated, fails.  The lookup of record 2 is in flight when a new
    page without that record replaces the displayed list; the answer,
    whose record carries no website, then raises no notification at all
    and the list stays as it is. *)
Lemma lookup_answer_for_hidden_record_silent :
  let searching2 := fst (findWebsite_start 2 (component sample_system)) in
  let s := fst (fetchBusinesses_resolve
                  {| page_businesses := [sample_business 1 "Acme" None];
                     total_pages := 1 |} searching2) in
  let r := findWebsite_resolve 2 (sample_business 2 "Bakery" None) s in
  snd r = []
  /\ ~ In (Toast JS.warning "No website found for Bakery") (snd r)
  /\ businesses (fst r) = businesses s.
Proof. repeat split. intros []. Qed.

(** C8, amended.  When a lookup completes while a record with the
    looked-up id is in the displayed list, the backend record takes the
    place of the displayed one, so the displayed website is the (possibly
    absent) one of the answer; the one notification is a warning when the
    answer carries no website and a success when it carries one; no error
    notification fires. *)
Theorem website_lookup_result_notifies
    (businessId : nat) (business : Business) (s : data) :
  (exists b, b ∈ businesses s /\ id b = businessId) ->
  let r := findWebsite_resolve businessId business s in
  exists index,
    JS.findIndex (fun b => Nat.eqb (id b) businessId) (businesses s) = Some index
    /\ businesses (fst r) = <[index := business]> (businesses s)
    /\ businesses (fst r) !! index = Some business
    /\ snd r
       = [if JS.truthy_opt (website business)
          then Toast JS.success ("Found website for " +:+ business_name business)
          else Toast JS.warning ("No website found for " +:+ business_name business)].
Proof.
  intros (b & Hb & Hid) r. subst r.
  destruct (findIndex_found (fun b => Nat.eqb (id b) businessId) (businesses s) b Hb)
    as [index Hindex].
  { apply Nat.eqb_eq. exact Hid. }
  exists index. unfold findWebsite_resolve. rewrite Hindex.
  destruct (findIndex_Some _ _ _ Hindex) as (x & Hx & _).
  split; [reflexivity | split; [reflexivity | split]].
  - simpl. apply list_lookup_insert_eq. apply (lookup_lt_Some _ _ _ Hx).
  - simpl. destruct (JS.truthy_opt (website business)); reflexivity.
Qed.

Lemma website_lookup_result_notifies_witness :
  let s := component sample_system in
  let answer := sample_business 2 "Bakery" None in
  (exists b, b ∈ businesses s /\ id b = 2%nat)
  /\ exists index,
       JS.findIndex (fun b => Nat.eqb (id b) 2) (businesses s) = Some index
       /\ businesses (fst (findWebsite_resolve 2 answer s))
          = <[index := answer]> (businesses s)
       /\ businesses (fst (findWebsite_resolve 2 answer s)) !! index = Some answer
       /\ snd (findWebsite_resolve 2 answer s)
          = [Toast JS.warning "No website found for Bakery"].
Proof.
  intros s answer.
  assert (exists b, b ∈ businesses s /\ id b = 2%nat) as H.
  { exists (sample_business 2 "Bakery" None). split; [| reflexivity].
    simpl. apply list_elem_of_In. simpl. right. left. reflexivity. }
  split; [exact H |].
  apply (website_lookup_result_notifies 2 answer s H).
Defined.

End BusinessListFacts.

(** ** The email generator *)

Section EmailModalFacts.

Import EmailModal.

Lemma or_else_truthy (x fallback : string) :
  x <> "" -> JS.or_else (Some x) fallback = x.
Proof.
  intros Hx. unfold JS.or_else.
  destruct (JS.truthy x) eqn:Ht; [reflexivity |].
  exfalso. apply truthy_true in Hx. congruence.
Qed.

(** What the [catch] clause leaves behind when the message it settles on
    is not empty. *)
Lemma catch_shows (e : JS.Error) (s : data) (msg : string) :
  msg <> "" ->
  JS.or_else (JS.response_data_error e)
    (JS.or_else (Some (JS.message e)) "Error generating email") = msg ->
  fst (generateEmail_catch e s) = {| email := email s; loading := false; error := Some msg |}
  /\ snd (generateEmail_catch e s) = [Toast JS.error_toast msg]
  /\ modal_body (fst (generateEmail_catch e s)) = ErrorText msg
  /\ state_of (fst (generateEmail_catch e s)) = errored.
Proof.
  intros Hmsg Heq. unfold state_of, modal_body, generateEmail_catch.
  rewrite Heq. simpl.
  assert (JS.truthy msg = true) as -> by (apply truthy_true; exact Hmsg).
  repeat split.
Qed.

(** C9, as stated, fails for the payload [{error: ""}]: the modal and
    the notification carry the message of the transport error instead. *)
Lemma empty_backend_error_not_shown :
  let e := backend_error "" "Request failed with status code 500" in
  let r := generateEmail_reject e
             (fst (generateEmail_start sample_business sample_displayed)) in
  modal_body (fst r) = ErrorText "Request failed with status code 500"
  /\ modal_body (fst r) <> ErrorText ""
  /\ snd r = [Toast JS.error_toast "Request failed with status code 500"].
Proof. repeat split. discriminate. Qed.

(** C9, amended.  When the generation request fails with the payload
    [{error: x}] for a non-empty [x], the generator ends in the errored
    state, the modal shows exactly [x] in place of the email text, which
    is kept unchanged in the data, and one error notification carrying
    [x] fires. *)
Theorem generation_error_shown_verbatim
    (x status_message : string) (s : data) :
  x <> "" ->
  let r := generateEmail_reject (backend_error x status_message) s in
  state_of (fst r) = errored
  /\ modal_body (fst r) = ErrorText x
  /\ snd r = [Toast JS.error_toast x]
  /\ email (fst r) = email s.
Proof.
  intros Hx r. subst r. unfold generateEmail_reject.
  destruct (catch_shows (backend_error x status_message) s x Hx) as (Hs & Ht & Hb & He).
  { simpl. apply or_else_truthy. exact Hx. }
  rewrite Hs in *. repeat split; assumption.
Qed.

Lemma generation_error_shown_verbatim_witness :
  let s := fst (generateEmail_start sample_business sample_displayed) in
  let r := generateEmail_reject
             (backend_error "GEMINI_API_KEY not set in environment"
                            "Request failed with status code 500") s in
  "GEMINI_API_KEY not set in environment" <> ""
  /\ state_of (fst r) = errored
  /\ modal_body (fst r) = ErrorText "GEMINI_API_KEY not set in environment"
  /\ snd r = [Toast JS.error_toast "GEMINI_API_KEY not set in environment"]
  /\ email (fst r) = email s.
Proof.
  intros s r.
  assert ("GEMINI_API_KEY not set in environment" <> "") as H by discriminate.
  split; [exact H |].
  apply (generation_error_shown_verbatim
           "GEMINI_API_KEY not set in environment"
           "Request failed with status code 500" s H).
Defined.

(** C10. When the generation request succeeds but the body has no
    [email] member or an empty one, the generator still ends in the
    errored state: the modal shows "No email content in response", one
    error notification carries the same message, and the stored email
    text is left as it was. *)
Theorem success_without_email_is_error
    (response_data_email : option string) (s : data) :
  JS.truthy_opt response_data_email = false ->
  let r := generateEmail_resolve response_data_email s in
  state_of (fst r) = errored
  /\ modal_body (fst r) = ErrorText "No email content in response"
  /\ error (fst r) = Some "No email content in response"
  /\ snd r = [Toast JS.error_toast "No email content in response"]
  /\ email (fst r) = email s.
Proof.
  intros H r. subst r. unfold generateEmail_resolve.
  destruct response_data_email as [e |]; simpl in H.
  - rewrite H. repeat split.
  - repeat split.
Qed.

Lemma success_without_email_is_error_witness :
  let s := fst (generateEmail_start sample_business sample_displayed) in
  JS.truthy_opt (Some "") = false
  /\ modal_body (fst (generateEmail_resolve (Some "") s))
     = ErrorText "No email content in response"
  /\ email (fst (generateEmail_resolve (Some "") s)) = "Dear Acme, ...".
Proof.
  intros s.
  assert (JS.truthy_opt (Some "") = false) as H by reflexivity.
  destruct (success_without_email_is_error (Some "") s H) as (_ & Hb & _ & _ & He).
  split; [exact H | split; [exact Hb | exact He]].
Defined.

End EmailModalFacts.

(** ** More on the column mapping form *)

Section ColumnMappingReachability.

Import ColumnMapping.

Lemma isColumnMapped_false (m : mapping) (c : string) :
  (forall f, column (get m f) <> c) -> isColumnMapped m c = false.
Proof.
  intros H. destruct (isColumnMapped m c) eqn:E; [| reflexivity].
  apply isColumnMapped_spec in E. destruct E as [f Hf]. destruct (H f Hf).
Qed.

Lemma existsb_eqb_elem (c : string) (cols : list string) :
  c ∈ cols -> existsb (String.eqb c) cols = true.
Proof.
  intros H. apply existsb_exists. exists c. split.
  - apply list_elem_of_In. exact H.
  - apply String.eqb_refl.
Qed.

(** A free, available, non-empty header can be given to any field. *)
Lemma select_free_header (cols : list string) (m : mapping) (f : field) (c : string) :
  c ∈ cols -> (forall g, column (get m g) <> c) ->
  act cols m (Select f c) = set_column m f c.
Proof.
  intros Hin Hfree. cbn [act]. unfold selectable, option_disabled.
  rewrite (existsb_eqb_elem c cols Hin), (isColumnMapped_false m c Hfree).
  simpl. rewrite orb_true_r. reflexivity.
Qed.

Lemma valid_columns_NoDup (m : mapping) :
  no_duplicates m -> isMappingValid m = true -> NoDup (columns m).
Proof.
  intros Hd Hv. pose proof (proj1 (isMappingValid_spec m) Hv) as Hne.
  unfold columns, requiredFields. cbn [map].
  assert (forall f g, f <> g -> column (get m f) <> column (get m g)) as Hdiff.
  { intros f g Hfg Heq. apply (Hne f). apply (Hd f g Hfg Heq). }
  rewrite !NoDup_cons, !not_elem_of_cons.
  repeat split; try apply not_elem_of_nil; try (apply Hdiff; discriminate).
  constructor.
Qed.

Lemma three_of_distinct (l : list string) :
  NoDup l -> (3 <= List.length l)%nat ->
  exists a b c, a ∈ l /\ b ∈ l /\ c ∈ l /\ a <> b /\ a <> c /\ b <> c.
Proof.
  intros Hnd Hlen.
  destruct l as [| a [| b [| c l]]]; simpl in Hlen; try lia.
  exists a, b, c.
  apply NoDup_cons in Hnd. destruct Hnd as [Ha Hnd].
  apply NoDup_cons in Hnd. destruct Hnd as [Hb _].
  repeat split.
  - left.
  - right. left.
  - right. right. left.
  - intros ->. apply Ha. left.
  - intros ->. apply Ha. right. left.
  - intros ->. apply Hb. left.
Qed.

(** X3. While field [A] holds header [h], an attempt to pick [h] for
    another field [B] changes nothing; once [A] is put back on the
    placeholder, [B] can take [h]. *)
Theorem header_released_then_reassigned
    (availableColumns : list string) (acts : list action)
    (A B : field) (h : string) :
  A <> B -> h <> "" -> h ∈ availableColumns ->
  column (get (run availableColumns acts) A) = h ->
  let m := run availableColumns acts in
  let m' := act availableColumns (act availableColumns m (Select A "")) (Select B h) in
  act availableColumns m (Select B h) = m
  /\ column (get m' B) = h
  /\ column (get m' A) = "".
Proof.
  intros HAB Hh Hin HA m m'. subst m m'.
  set (m := run availableColumns acts) in *.
  pose proof (no_duplicates_run availableColumns acts) as Hd. fold m in Hd.
  assert (forall g, g <> A -> column (get m g) <> h) as Hothers.
  { intros g HgA Hg. apply Hh. rewrite <- HA. apply (Hd A g); congruence. }
  split; [| split].
  - cbn [act]. unfold selectable.
    rewrite (held_elsewhere_disabled m A B h HA (Hothers B (not_eq_sym HAB))).
    assert (String.eqb h "" = false) as -> by (apply String.eqb_neq; exact Hh).
    rewrite andb_false_r. reflexivity.
  - assert (act availableColumns m (Select A "") = set_column m A "") as ->.
    { cbn [act]. unfold selectable. rewrite String.eqb_refl. reflexivity. }
    rewrite select_free_header; [| exact Hin |].
    + rewrite column_set_column.
      destruct (field_eqb_spec B B); [reflexivity | congruence].
    + intros g. rewrite column_set_column.
      destruct (field_eqb_spec A g) as [<- | HAg]; [congruence |].
      apply Hothers. congruence.
  - assert (act availableColumns m (Select A "") = set_column m A "") as ->.
    { cbn [act]. unfold selectable. rewrite String.eqb_refl. reflexivity. }
    rewrite select_free_header; [| exact Hin |].
    + rewrite !column_set_column.
      destruct (field_eqb_spec B A); [congruence |].
      destruct (field_eqb_spec A A); [reflexivity | congruence].
    + intros g. rewrite column_set_column.
      destruct (field_eqb_spec A g) as [<- | HAg]; [congruence |].
      apply Hothers. congruence.
Qed.

Lemma header_released_then_reassigned_witness :
  let cols := ["biz"; "cat"; "loc"] in
  let m := run cols [Select business_name "biz"] in
  act cols m (Select industry "biz") = m
  /\ column (get (act cols (act cols m (Select business_name "")) (Select industry "biz"))
                 industry) = "biz"
  /\ column (get (act cols (act cols m (Select business_name "")) (Select industry "biz"))
                 business_name) = "".
Proof.
  apply (header_released_then_reassigned
           ["biz"; "cat"; "loc"] [Select business_name "biz"]
           business_name industry "biz").
  - discriminate.
  - discriminate.
  - apply list_elem_of_In. simpl. left. reflexivity.
  - reflexivity.
Defined.

End ColumnMappingReachability.

(** ** More on the upload flow *)

Section AppTraces.

Import App.

Lemma or_else_nonempty (a : option string) (fallback : string) :
  fallback <> "" -> JS.or_else a fallback <> "".
Proof.
  intros Hf. unfold JS.or_else. destruct a as [x |]; [| exact Hf].
  destruct (JS.truthy x) eqn:Hx; [| exact Hf].
  apply truthy_true. exact Hx.
Qed.

(** Where the selected file of the next state comes from. *)
Lemma handle_selectedFile_origin (ev : event) (s : data) (f : File) :
  selectedFile (fst (handle ev s)) = Some f ->
  selectedFile s = Some f \/ ev = FileSelect (Some f) \/ ev = FileDrop (Some f).
Proof.
  destruct ev as [file | file | | d fs | msg | | m | n | e]; simpl.
  - unfold handleFileSelect. destruct file as [f0 |]; [| auto].
    destruct (String.eqb (type f0) "text/csv"); simpl; [| auto].
    intros [= ->]. auto.
  - unfold handleFileDrop. destruct file as [f0 |]; [| auto].
    destruct (String.eqb (type f0) "text/csv"); simpl; [| auto].
    intros [= ->]. auto.
  - unfold previewFile. destruct (selectedFile s) eqn:E; simpl; rewrite ?E; auto.
  - auto.
  - auto.
  - auto.
  - unfold confirmMapping, uploadFile_start. simpl.
    destruct (selectedFile s) eqn:E; simpl; rewrite ?E; auto.
  - discriminate.
  - auto.
Qed.

(** The only handler that sends the upload request is [confirmMapping],
    with its argument and the file selected at that moment. *)
Lemma handle_upload_origin (ev : event) (s : data) (f : File) (m : ColumnMapping.mapping) :
  In (PostUpload f m) (snd (handle ev s)) ->
  ev = ConfirmMapping m /\ selectedFile s = Some f.
Proof.
  destruct ev as [file | file | | d fs | msg | | m0 | n | e]; simpl.
  - unfold handleFileSelect. destruct file as [f0 |]; [| intros []].
    destruct (String.eqb (type f0) "text/csv"); intros [].
  - unfold handleFileDrop. destruct file as [f0 |]; [| intros []].
    destruct (String.eqb (type f0) "text/csv"); intros [].
  - unfold previewFile. destruct (selectedFile s); simpl; [| intros []].
    intros [H | []]. discriminate H.
  - intros [].
  - intros [].
  - intros [].
  - unfold confirmMapping, uploadFile_start. simpl.
    destruct (selectedFile s) as [f0 |] eqn:Hf; simpl; [| intros []].
    intros [[= -> ->] | []]. split; reflexivity.
  - intros [H | [H | [H | []]]]; discriminate H.
  - intros [H | []]. discriminate H.
Qed.

Lemma run_upload_origin (evs : list event) (s : data) (f : File) (m : ColumnMapping.mapping) :
  In (PostUpload f m) (snd (run s evs)) ->
  In (ConfirmMapping m) evs
  /\ (selectedFile s = Some f
      \/ In (FileSelect (Some f)) evs \/ In (FileDrop (Some f)) evs).
Proof.
  revert s. induction evs as [| ev evs IH]; intros s; simpl; [intros [] |].
  pose proof (handle_upload_origin ev s f m) as Hhead.
  pose proof (handle_selectedFile_origin ev s f) as Hsel.
  destruct (handle ev s) as [s1 out1]. simpl in Hhead, Hsel.
  specialize (IH s1). destruct (run s1 evs) as [s2 out2]. simpl in *.
  intros Hin. apply in_app_or in Hin. destruct Hin as [Hin | Hin].
  - destruct (Hhead Hin) as [-> Hf]. auto.
  - destruct (IH Hin) as [Hc Hfile]. split; [auto |].
    destruct Hfile as [Hfile | [Hfile | Hfile]]; [| auto | auto].
    destruct (Hsel Hfile) as [H | [H | H]]; auto.
Qed.

(** X4. Every upload request carries a mapping that was confirmed and a
    file that was selected or dropped earlier in the same run: nothing is
    uploaded without a confirmation. *)
Theorem upload_only_after_confirm
    (evs : list event) (f : File) (m : ColumnMapping.mapping) :
  In (PostUpload f m) (snd (run initial evs)) ->
  In (ConfirmMapping m) evs
  /\ (In (FileSelect (Some f)) evs \/ In (FileDrop (Some f)) evs).
Proof.
  intros Hin. destruct (run_upload_origin evs initial f m Hin) as [Hc Hf].
  split; [exact Hc |]. destruct Hf as [Hf | Hf]; [discriminate Hf | exact Hf].
Qed.

Lemma upload_only_after_confirm_witness :
  let evs := [FileDrop (Some sample_csv); ClickPreview;
              ParseComplete [] ["biz"; "cat"; "loc"]; ConfirmMapping sample_mapping] in
  In (PostUpload sample_csv sample_mapping) (snd (run initial evs))
  /\ In (ConfirmMapping sample_mapping) evs
  /\ (In (FileSelect (Some sample_csv)) evs \/ In (FileDrop (Some sample_csv)) evs).
Proof.
  intros evs.
  assert (In (PostUpload sample_csv sample_mapping) (snd (run initial evs))) as H.
  { simpl. right. left. reflexivity. }
  split; [exact H |].
  apply (upload_only_after_confirm evs sample_csv sample_mapping H).
Defined.

Lemma no_file_handle (ev : event) (s : data) :
  selectedFile s = None -> selects_csv ev = false ->
  selectedFile (fst (handle ev s)) = None
  /\ Forall (fun eff => uses_file eff = false) (snd (handle ev s)).
Proof.
  intros Hs Hev.
  destruct ev as [file | file | | d fs | msg | | m | n | e]; simpl in *.
  - unfold handleFileSelect. destruct file as [f0 |]; [| split; [exact Hs | constructor]].
    rewrite Hev. split; [exact Hs | constructor].
  - unfold handleFileDrop. destruct file as [f0 |]; [| split; [exact Hs | constructor]].
    rewrite Hev. split; [exact Hs | constructor].
  - unfold previewFile. rewrite Hs. split; [exact Hs | constructor].
  - split; [exact Hs | constructor].
  - split; [exact Hs | constructor].
  - split; [exact Hs | constructor].
  - unfold confirmMapping, uploadFile_start. simpl. rewrite Hs.
    split; [exact Hs | constructor].
  - split; [reflexivity | repeat constructor].
  - split; [exact Hs | repeat constructor].
Qed.

Lemma no_file_run (evs : list event) (s : data) :
  selectedFile s = None ->
  Forall (fun ev => selects_csv ev = false) evs ->
  Forall (fun eff => uses_file eff = false) (snd (run s evs)).
Proof.
  revert s. induction evs as [| ev evs IH]; intros s Hs Hevs; simpl; [constructor |].
  apply Forall_cons in Hevs. destruct Hevs as [Hev Hevs].
  destruct (no_file_handle ev s Hs Hev) as [Hs1 Hout1].
  destruct (handle ev s) as [s1 out1]. simpl in Hs1, Hout1.
  specialize (IH s1 Hs1 Hevs). destruct (run s1 evs) as [s2 out2]. simpl in *.
  apply Forall_app. split; assumption.
Qed.

(** X5. After a successful upload nothing is parsed and nothing is
    uploaded, whatever the user clicks or confirms and whatever requests
    settle, until a CSV-typed file is selected or dropped again. *)
Theorem after_success_idle_until_new_file
    (records_count : N) (s : data) (evs : list event) :
  Forall (fun ev => selects_csv ev = false) evs ->
  upload_button_disabled (fst (uploadFile_resolve records_count s)) = true
  /\ Forall (fun eff => uses_file eff = false)
            (snd (run (fst (uploadFile_resolve records_count s)) evs)).
Proof.
  intros Hevs. split; [reflexivity |].
  apply no_file_run; [reflexivity | exact Hevs].
Qed.

Lemma after_success_idle_until_new_file_witness :
  let s := fst (run initial [FileSelect (Some sample_csv); ConfirmMapping sample_mapping]) in
  let evs := [ClickPreview; ConfirmMapping sample_mapping; FileSelect (Some sample_pdf);
              UploadRejected (JS.Build_Error None "Network Error")] in
  Forall (fun ev => selects_csv ev = false) evs
  /\ snd (run (fst (uploadFile_resolve 3 s)) evs)
     = [Toast JS.error_toast "Error uploading file"]
  /\ Forall (fun eff => uses_file eff = false)
            (snd (run (fst (uploadFile_resolve 3 s)) evs)).
Proof.
  intros s evs.
  assert (Forall (fun ev => selects_csv ev = false) evs) as H
    by (repeat constructor).
  split; [exact H | split; [reflexivity |]].
  apply (after_success_idle_until_new_file 3 s evs H).
Defined.

(** X6. A failed upload keeps the selected file and the confirmed
    mapping: the upload button is enabled again and a click on it parses
    the same file, without a new selection. *)
Theorem failed_upload_keeps_file (e : JS.Error) (s : data) (f : File) :
  selectedFile s = Some f ->
  let s' := fst (uploadFile_reject e s) in
  selectedFile s' = Some f
  /\ columnMapping s' = columnMapping s
  /\ upload_button_disabled s' = false
  /\ snd (previewFile s') = [PapaParse f].
Proof.
  intros Hf s'. subst s'. unfold upload_button_disabled, previewFile. simpl.
  rewrite Hf. repeat split.
Qed.

Lemma failed_upload_keeps_file_witness :
  let s := fst (run initial [FileSelect (Some sample_csv); ConfirmMapping sample_mapping]) in
  let e := JS.Build_Error None "Network Error" in
  selectedFile s = Some sample_csv
  /\ upload_button_disabled (fst (uploadFile_reject e s)) = false
  /\ snd (previewFile (fst (uploadFile_reject e s))) = [PapaParse sample_csv].
Proof.
  intros s e.
  assert (selectedFile s = Some sample_csv) as H by reflexivity.
  destruct (failed_upload_keeps_file e s sample_csv H) as (_ & _ & Hb & Hp).
  split; [exact H | split; [exact Hb | exact Hp]].
Defined.

(** X7. Cancelling the mapping form undoes the parse that opened it: when
    the form was closed, with no preview and no mapping stored, the data
    after [complete] followed by [cancelMapping] is the data before. *)
Theorem parse_then_cancel_restores
    (results_data : list row) (results_meta_fields : list string) (s : data) :
  showColumnMapping s = false -> csvPreviewData s = [] -> csvColumns s = [] ->
  columnMapping s = None ->
  fst (cancelMapping (fst (previewFile_complete results_data results_meta_fields s))) = s.
Proof.
  intros H1 H2 H3 H4. destruct s. simpl in *. subst. reflexivity.
Qed.

Lemma parse_then_cancel_restores_witness :
  let s := fst (handleFileSelect (Some sample_csv) initial) in
  fst (cancelMapping (fst (previewFile_complete [[("biz", "Acme")]] ["biz"] s))) = s.
Proof.
  intros s.
  apply (parse_then_cancel_restores [[("biz", "Acme")]] ["biz"] s);
    reflexivity.
Defined.

Lemma toasts_nonempty_handle (ev : event) (s : data) :
  toasts_nonempty (snd (handle ev s)).
Proof.
  unfold toasts_nonempty.
  destruct ev as [file | file | | d fs | msg | | m | n | e]; simpl.
  - unfold handleFileSelect. destruct file as [f0 |]; [| constructor].
    destruct (String.eqb (type f0) "text/csv"); constructor.
  - unfold handleFileDrop. destruct file as [f0 |]; [| constructor].
    destruct (String.eqb (type f0) "text/csv"); constructor.
  - unfold previewFile. destruct (selectedFile s); repeat constructor.
  - constructor.
  - constructor.
  - constructor.
  - unfold confirmMapping, uploadFile_start. simpl.
    destruct (selectedFile s); repeat constructor.
  - repeat constructor. discriminate.
  - repeat constructor. apply or_else_nonempty. discriminate.
Qed.

(** X8. No notification of the upload flow is ever empty: whatever the
    backend sends in its error member, a failure toast carries that
    member or, when it is missing or empty, the fallback text. *)
Theorem upload_toasts_never_empty (evs : list event) (s : data) :
  toasts_nonempty (snd (run s evs))
  /\ (forall e, snd (uploadFile_reject e s)
                = [Toast JS.error_toast
                     (if JS.truthy_opt (JS.response_data_error e)
                      then default "" (JS.response_data_error e)
                      else "Error uploading file")]).
Proof.
  split.
  - revert s. induction evs as [| ev evs IH]; intros s; simpl; [constructor |].
    pose proof (toasts_nonempty_handle ev s) as H1.
    destruct (handle ev s) as [s1 out1]. simpl in H1.
    specialize (IH s1). destruct (run s1 evs) as [s2 out2]. simpl in *.
    apply Forall_app. split; assumption.
  - intros e. unfold uploadFile_reject, JS.or_else. simpl.
    destruct (JS.response_data_error e) as [x |]; simpl; [| reflexivity].
    destruct (JS.truthy x); reflexivity.
Qed.

End AppTraces.

(** ** The upload flow with the form it renders *)

Section SessionFacts.

Import Session.

Lemma remount_no_duplicates (s : App.data) (form : option ColumnMapping.mapping) :
  (forall m, form = Some m -> ColumnMapping.no_duplicates m) ->
  forall m, remount s form = Some m -> ColumnMapping.no_duplicates m.
Proof.
  intros Hform m. unfold remount.
  destruct (App.showColumnMapping s); [| discriminate].
  destruct form as [m0 |]; intros [= <-].
  - apply Hform. reflexivity.
  - apply no_duplicates_initial.
Qed.

Lemma well_formed_lift (ev : App.event) (x : session) :
  well_formed x -> well_formed (fst (lift (App.handle ev (app x)) (form x))).
Proof.
  intros [Hcsv Hform]. split; simpl.
  - apply csv_selected_handle. exact Hcsv.
  - apply remount_no_duplicates. exact Hform.
Qed.

Lemma well_formed_handle (ev : event) (x : session) :
  well_formed x -> well_formed (fst (handle ev x)).
Proof.
  intros Hx. destruct ev as [file | file | | d fs | msg | n | e | a | |]; cbn [handle].
  - apply (well_formed_lift (App.FileSelect file) x Hx).
  - apply (well_formed_lift (App.FileDrop file) x Hx).
  - destruct (App.upload_button_disabled (app x)); [exact Hx |].
    apply (well_formed_lift App.ClickPreview x Hx).
  - apply (well_formed_lift (App.ParseComplete d fs) x Hx).
  - apply (well_formed_lift (App.ParseError msg) x Hx).
  - apply (well_formed_lift (App.UploadResolved n) x Hx).
  - apply (well_formed_lift (App.UploadRejected e) x Hx).
  - destruct (form x) as [m |] eqn:Hm; [| exact Hx].
    destruct Hx as [Hcsv Hform]. split; simpl; [exact Hcsv |].
    intros m' [= <-]. apply no_duplicates_act. apply Hform. exact Hm.
  - destruct (form x) as [m |] eqn:Hm; [| exact Hx].
    unfold ColumnMapping.confirm.
    destruct (ColumnMapping.isMappingValid m); [| exact Hx].
    rewrite <- Hm. apply (well_formed_lift (App.ConfirmMapping m) x Hx).
  - destruct (form x) as [m |] eqn:Hm; [| exact Hx].
    rewrite <- Hm. apply (well_formed_lift App.CancelMapping x Hx).
Qed.

Lemma handle_upload_ok (ev : event) (x : session)
    (f : App.File) (m : ColumnMapping.mapping) :
  well_formed x -> In (App.PostUpload f m) (snd (handle ev x)) -> upload_ok f m.
Proof.
  intros [Hcsv Hform].
  assert (forall aev, In (App.PostUpload f m) (snd (App.handle aev (app x))) ->
                      (forall m0, aev <> App.ConfirmMapping m0) -> upload_ok f m) as Hother.
  { intros aev Hin Hne. destruct (handle_upload_origin aev (app x) f m Hin) as [-> _].
    destruct (Hne m eq_refl). }
  destruct ev as [file | file | | d fs | msg | n | e | a | |]; cbn [handle].
  - intros Hin. apply (Hother (App.FileSelect file) Hin). discriminate.
  - intros Hin. apply (Hother (App.FileDrop file) Hin). discriminate.
  - destruct (App.upload_button_disabled (app x)); [intros [] |].
    intros Hin. apply (Hother App.ClickPreview Hin). discriminate.
  - intros Hin. apply (Hother (App.ParseComplete d fs) Hin). discriminate.
  - intros Hin. apply (Hother (App.ParseError msg) Hin). discriminate.
  - intros Hin. apply (Hother (App.UploadResolved n) Hin). discriminate.
  - intros Hin. apply (Hother (App.UploadRejected e) Hin). discriminate.
  - destruct (form x); intros [].
  - destruct (form x) as [m0 |] eqn:Hm; [| intros []].
    unfold ColumnMapping.confirm.
    destruct (ColumnMapping.isMappingValid m0) eqn:Hv; [| intros []].
    intros Hin.
    destruct (handle_upload_origin (App.ConfirmMapping m0) (app x) f m Hin) as [[= ->] Hf].
    split; [apply Hcsv; exact Hf | split; [exact Hv |]].
    apply valid_columns_NoDup; [apply Hform; reflexivity | exact Hv].
  - destruct (form x) as [m0 |] eqn:Hm; [| intros []].
    intros Hin. apply (Hother App.CancelMapping Hin). discriminate.
Qed.

Lemma run_upload_ok (evs : list event) (x : session)
    (f : App.File) (m : ColumnMapping.mapping) :
  well_formed x -> In (App.PostUpload f m) (snd (run x evs)) -> upload_ok f m.
Proof.
  revert x. induction evs as [| ev evs IH]; intros x Hx; simpl; [intros [] |].
  pose proof (well_formed_handle ev x Hx) as Hx1.
  pose proof (handle_upload_ok ev x f m Hx) as Hhead.
  destruct (handle ev x) as [x1 out1]. simpl in Hx1, Hhead.
  specialize (IH x1 Hx1). destruct (run x1 evs) as [x2 out2]. simpl in *.
  intros Hin. apply in_app_or in Hin. destruct Hin as [Hin | Hin]; auto.
Qed.

(** X9. Whatever the user does in the page and in the mapping form, every
    upload request carries a CSV-typed file and a mapping in which each
    of the three fields has a non-empty column, no column being used for
    two fields. *)
Theorem session_uploads_complete_mapping
    (evs : list event) (f : App.File) (m : ColumnMapping.mapping) :
  In (App.PostUpload f m) (snd (run initial evs)) ->
  App.type f = "text/csv"
  /\ ColumnMapping.isMappingValid m = true
  /\ NoDup (ColumnMapping.columns m).
Proof.
  apply run_upload_ok. split.
  - apply csv_selected_initial.
  - intros m0 H. discriminate H.
Qed.

Lemma session_uploads_complete_mapping_witness :
  In (App.PostUpload App.sample_csv App.sample_mapping) (snd (run initial sample_events))
  /\ ColumnMapping.columns App.sample_mapping = ["biz"; "cat"; "loc"]
  /\ NoDup (ColumnMapping.columns App.sample_mapping).
Proof.
  assert (In (App.PostUpload App.sample_csv App.sample_mapping)
             (snd (run initial sample_events))) as H.
  { simpl. right. left. reflexivity. }
  destruct (session_uploads_complete_mapping sample_events
              App.sample_csv App.sample_mapping H) as (_ & _ & Hnd).
  split; [exact H | split; [reflexivity | exact Hnd]].
Defined.

Lemma run_well_formed (evs : list event) (x : session) :
  well_formed x -> well_formed (fst (run x evs)).
Proof.
  revert x. induction evs as [| ev evs IH]; intros x Hx; simpl; [exact Hx |].
  pose proof (well_formed_handle ev x Hx) as Hx1.
  destruct (handle ev x) as [x1 out1]. simpl in Hx1.
  specialize (IH x1 Hx1). destruct (run x1 evs) as [x2 out2]. exact IH.
Qed.

Lemma well_formed_initial : well_formed initial.
Proof.
  split; [apply csv_selected_initial | intros m H; discriminate H].
Qed.

(** One user action gives a field its old column, no column or one of
    the headers the form was given. *)
Lemma act_column (cols : list string) (m : ColumnMapping.mapping)
    (a : ColumnMapping.action) (f : ColumnMapping.field) :
  ColumnMapping.column (ColumnMapping.get (ColumnMapping.act cols m a) f)
  = ColumnMapping.column (ColumnMapping.get m f)
  \/ ColumnMapping.column (ColumnMapping.get (ColumnMapping.act cols m a) f) = ""
  \/ ColumnMapping.column (ColumnMapping.get (ColumnMapping.act cols m a) f) ∈ cols.
Proof.
  destruct a as [g c | g t]; cbn [ColumnMapping.act].
  - destruct (ColumnMapping.selectable cols m g c) eqn:Hsel; [| left; reflexivity].
    rewrite column_set_column.
    destruct (ColumnMapping.field_eqb g f); [| left; reflexivity].
    unfold ColumnMapping.selectable in Hsel. apply orb_true_iff in Hsel.
    destruct Hsel as [He | Hin].
    + right. left. apply String.eqb_eq. exact He.
    + right. right. apply andb_true_iff in Hin. destruct Hin as [Hin _].
      apply existsb_exists in Hin. destruct Hin as (y & Hy & Heq).
      apply String.eqb_eq in Heq. subst y. apply list_elem_of_In. exact Hy.
  - rewrite column_set_displayName. left. reflexivity.
Qed.

(** The header list of [App] changes only in the parser's [complete]
    callback and in [cancelMapping]. *)
Lemma handle_csvColumns (aev : App.event) (s : App.data) (c : string) :
  c ∈ App.csvColumns (fst (App.handle aev s)) ->
  c ∈ App.csvColumns s
  \/ exists d fs, aev = App.ParseComplete d fs /\ c ∈ fs.
Proof.
  destruct aev as [file | file | | d fs | msg | | m | n | e]; simpl.
  - unfold App.handleFileSelect. destruct file as [f0 |]; [| auto].
    destruct (String.eqb (App.type f0) "text/csv"); auto.
  - unfold App.handleFileDrop. destruct file as [f0 |]; [| auto].
    destruct (String.eqb (App.type f0) "text/csv"); auto.
  - unfold App.previewFile. destruct (App.selectedFile s); auto.
  - intros H. right. exists d, fs. auto.
  - auto.
  - intros H. apply elem_of_nil in H. destruct H.
  - unfold App.confirmMapping, App.uploadFile_start. simpl.
    destruct (App.selectedFile s); auto.
  - auto.
  - auto.
Qed.

Lemma within_lift (aev : App.event) (H E : list string) (x : session) :
  (forall d fs c, aev = App.ParseComplete d fs -> c ∈ fs -> c ∈ E) ->
  within H x ->
  within (H ++ E)%list (fst (lift (App.handle aev (app x)) (form x))).
Proof.
  intros HE [Hcols Hform]. split; simpl.
  - intros c Hc. apply elem_of_app.
    destruct (handle_csvColumns aev (app x) c Hc) as [Hold | (d & fs & Hev & Hin)].
    + left. apply Hcols. exact Hold.
    + right. apply (HE d fs c Hev Hin).
  - intros m f. unfold remount.
    destruct (App.showColumnMapping _); [| discriminate].
    destruct (form x) as [m0 |] eqn:Hm; intros [= <-].
    + destruct (Hform m0 f eq_refl) as [H0 | H0]; [left; exact H0 |].
      right. apply elem_of_app. left. exact H0.
    + left. destruct f; reflexivity.
Qed.

Lemma within_mono (H H' : list string) (x : session) :
  (forall c, c ∈ H -> c ∈ H') -> within H x -> within H' x.
Proof.
  intros Hsub [Hcols Hform]. split.
  - intros c Hc. apply Hsub, Hcols, Hc.
  - intros m f Hm. destruct (Hform m f Hm) as [H0 | H0]; [left; exact H0 |].
    right. apply Hsub, H0.
Qed.

Lemma within_handle (ev : event) (H : list string) (x : session) :
  within H x -> within (H ++ parsed_headers [ev])%list (fst (handle ev x)).
Proof.
  intros Hx.
  assert (forall aev, (forall d fs, aev <> App.ParseComplete d fs) ->
            within (H ++ [])%list (fst (lift (App.handle aev (app x)) (form x)))) as Hother.
  { intros aev Hne. apply within_lift; [| exact Hx].
    intros d fs c Hev. destruct (Hne d fs Hev). }
  assert (within (H ++ [])%list x) as Hx0.
  { apply (within_mono H); [| exact Hx]. intros c Hc. apply elem_of_app. left. exact Hc. }
  destruct ev as [file | file | | d fs | msg | n | e | a | |];
    cbn [handle parsed_headers].
  - apply (Hother (App.FileSelect file)). discriminate.
  - apply (Hother (App.FileDrop file)). discriminate.
  - destruct (App.upload_button_disabled (app x)); [exact Hx0 |].
    apply (Hother App.ClickPreview). discriminate.
  - apply (within_lift (App.ParseComplete d fs)); [| exact Hx].
    intros d' fs' c [= _ <-] Hc. apply elem_of_app. left. exact Hc.
  - apply (Hother (App.ParseError msg)). discriminate.
  - apply (Hother (App.UploadResolved n)). discriminate.
  - apply (Hother (App.UploadRejected e)). discriminate.
  - destruct (form x) as [m |] eqn:Hm; [| exact Hx0].
    destruct Hx as [Hcols Hform]. split; simpl.
    + intros c Hc. apply elem_of_app. left. apply Hcols, Hc.
    + intros m' f [= <-].
      destruct (act_column (App.csvColumns (app x)) m a f) as [Ha | [Ha | Ha]].
      * rewrite Ha. destruct (Hform m f Hm) as [H0 | H0]; [left; exact H0 |].
        right. apply elem_of_app. left. exact H0.
      * left. exact Ha.
      * right. apply elem_of_app. left. apply Hcols, Ha.
  - destruct (form x) as [m |] eqn:Hm; [| exact Hx0].
    unfold ColumnMapping.confirm.
    destruct (ColumnMapping.isMappingValid m); [| exact Hx0].
    apply (Hother (App.ConfirmMapping m)). discriminate.
  - destruct (form x) as [m |] eqn:Hm; [| exact Hx0].
    apply (Hother App.CancelMapping). discriminate.
Qed.

Lemma parsed_headers_cons (ev : event) (evs : list event) :
  parsed_headers (ev :: evs) = (parsed_headers [ev] ++ parsed_headers evs)%list.
Proof.
  destruct ev; simpl; try reflexivity. rewrite app_nil_r. reflexivity.
Qed.

Lemma run_within (evs : list event) (H : list string) (x : session) :
  within H x -> within (H ++ parsed_headers evs)%list (fst (run x evs)).
Proof.
  revert H x. induction evs as [| ev evs IH]; intros H x Hx.
  - simpl. apply (within_mono H); [| exact Hx].
    intros c Hc. apply elem_of_app. left. exact Hc.
  - pose proof (within_handle ev H x Hx) as Hx1.
    rewrite parsed_headers_cons, app_assoc. simpl.
    destruct (handle ev x) as [x1 out1]. simpl in Hx1.
    specialize (IH _ x1 Hx1). destruct (run x1 evs) as [x2 out2]. exact IH.
Qed.

Lemma within_initial : within [] initial.
Proof.
  split.
  - intros c Hc. exact Hc.
  - intros m f H. discriminate H.
Qed.

(** X1. Whatever happens in the page while the mapping form is open,
    also when another file is parsed under it, each field of the form
    holds either no column or a header reported by a parse earlier in the
    session (not always the last one), and a non-empty header is never
    held by two fields at once. *)
Theorem session_form_columns_parsed
    (evs : list event) (m : ColumnMapping.mapping) :
  form (fst (run initial evs)) = Some m ->
  (forall f, ColumnMapping.column (ColumnMapping.get m f) = ""
             \/ ColumnMapping.column (ColumnMapping.get m f) ∈ parsed_headers evs)
  /\ (forall f g, f <> g ->
        ColumnMapping.column (ColumnMapping.get m f) <> "" ->
        ColumnMapping.column (ColumnMapping.get m f)
        <> ColumnMapping.column (ColumnMapping.get m g)).
Proof.
  intros Hm. split.
  - intros f. destruct (run_within evs [] initial within_initial) as [_ Hform].
    apply (Hform m f Hm).
  - intros f g Hfg Hne Heq. apply Hne.
    destruct (run_well_formed evs initial well_formed_initial) as [_ Hnd].
    apply (Hnd m Hm f g Hfg Heq).
Qed.

Lemma session_form_columns_parsed_witness :
  let x := fst (run initial sample_reparse) in
  let m := ColumnMapping.set_column ColumnMapping.initial ColumnMapping.business_name "biz" in
  form x = Some m
  /\ App.csvColumns (app x) = ["x"]
  /\ ColumnMapping.column (ColumnMapping.get m ColumnMapping.business_name) = "biz"
  /\ (ColumnMapping.column (ColumnMapping.get m ColumnMapping.business_name) = ""
      \/ ColumnMapping.column (ColumnMapping.get m ColumnMapping.business_name)
         ∈ parsed_headers sample_reparse).
Proof.
  intros x m.
  assert (form x = Some m) as H by reflexivity.
  destruct (session_form_columns_parsed sample_reparse m H) as [Hav _].
  split; [exact H | split; [reflexivity | split; [reflexivity |]]].
  apply (Hav ColumnMapping.business_name).
Defined.

Lemma run_app (evs1 evs2 : list event) (x : session) :
  fst (run x (evs1 ++ evs2)%list) = fst (run (fst (run x evs1)) evs2).
Proof.
  revert x. induction evs1 as [| ev evs1 IH]; intros x; simpl.
  - destruct (run x evs2); reflexivity.
  - destruct (handle ev x) as [x1 out1]. specialize (IH x1).
    destruct (run x1 (evs1 ++ evs2)%list) as [x2 out2].
    destruct (run x1 evs1) as [x3 out3]. simpl in *. exact IH.
Qed.

(** X2. The Confirm button of the form is enabled only if at least three
    distinct non-empty headers were reported by the parses of the session
    so far; and for a file with at least three distinct non-empty
    headers, a form opened on it can be brought to an enabled Confirm by
    three selections. *)
Theorem session_confirm_needs_three_headers :
  (forall evs m,
     form (fst (run initial evs)) = Some m ->
     ColumnMapping.confirm_disabled m = false ->
     (3 <= List.length (ColumnMapping.distinct_headers (parsed_headers evs)))%nat)
  /\ (forall d fs,
        (3 <= List.length (ColumnMapping.distinct_headers fs))%nat ->
        exists a b c m,
          form (fst (run initial
                       (open_form d fs
                        ++ [FormAction (ColumnMapping.Select ColumnMapping.business_name a);
                            FormAction (ColumnMapping.Select ColumnMapping.industry b);
                            FormAction (ColumnMapping.Select ColumnMapping.location c)])%list))
          = Some m
          /\ ColumnMapping.columns m = [a; b; c]
          /\ ColumnMapping.confirm_disabled m = false).
Proof.
  split.
  - intros evs m Hm Hv. unfold ColumnMapping.confirm_disabled in Hv.
    apply negb_false_iff in Hv.
    destruct (run_well_formed evs initial well_formed_initial) as [_ Hnd].
    pose proof (valid_columns_NoDup m (Hnd m Hm) Hv) as Hdist.
    change 3%nat with (List.length (ColumnMapping.columns m)).
    apply submseteq_length, NoDup_submseteq; [exact Hdist |].
    intros x Hx. unfold ColumnMapping.distinct_headers.
    apply elem_of_remove_dups, list_elem_of_filter.
    unfold ColumnMapping.columns in Hx. apply list_elem_of_fmap in Hx.
    destruct Hx as (f & -> & _).
    pose proof (proj1 (isMappingValid_spec m) Hv f) as Hne.
    split; [exact Hne |].
    destruct (run_within evs [] initial within_initial) as [_ Hform].
    destruct (Hform m f Hm) as [H | H]; [destruct (Hne H) | exact H].
  - intros d fs Hlen.
    destruct (three_of_distinct _ (NoDup_remove_dups _) Hlen)
      as (a & b & c & Ha & Hb & Hc & Hab & Hac & Hbc).
    unfold ColumnMapping.distinct_headers in Ha, Hb, Hc.
    apply elem_of_remove_dups, list_elem_of_filter in Ha, Hb, Hc.
    destruct Ha as [Ha0 Ha], Hb as [Hb0 Hb], Hc as [Hc0 Hc].
    exists a, b, c.
    exists (ColumnMapping.set_column
              (ColumnMapping.set_column
                 (ColumnMapping.set_column ColumnMapping.initial
                    ColumnMapping.business_name a)
                 ColumnMapping.industry b)
              ColumnMapping.location c).
    split; [| split].
    + rewrite run_app.
      change (fst (run initial (open_form d fs)))
        with {| app := App.set_showColumnMapping true
                         (App.set_csvColumns fs
                            (App.set_csvPreviewData d
                               (fst (App.handleFileSelect (Some App.sample_csv)
                                       App.initial))));
                form := Some ColumnMapping.initial |}.
      cbn [run handle form app fst snd App.csvColumns App.set_showColumnMapping
           App.set_csvColumns].
      rewrite (select_free_header fs ColumnMapping.initial
                 ColumnMapping.business_name a Ha).
      2:{ intros g. destruct g; simpl; congruence. }
      rewrite (select_free_header fs _ ColumnMapping.industry b Hb).
      2:{ intros g. destruct g; simpl; congruence. }
      rewrite (select_free_header fs _ ColumnMapping.location c Hc).
      2:{ intros g. destruct g; simpl; congruence. }
      reflexivity.
    + reflexivity.
    + unfold ColumnMapping.confirm_disabled. apply negb_false_iff.
      apply isMappingValid_spec. intros g. destruct g; simpl; assumption.
Qed.

End SessionFacts.

(** ** More on the business directory *)

Section DirectoryFacts.

Import BusinessList.

(** X10. Page navigation through the two buttons never leaves the range
    of pages: from a page between 1 and [totalPages], Next moves one page
    up unless the page is the last one, Previous one page down unless it
    is the first one, and the request sent asks for the page moved to. *)
Theorem navigation_stays_in_range (s : data) :
  (1 <= currentPage s <= totalPages s)%Z ->
  (let r := click_next s in
   (1 <= currentPage (fst r) <= totalPages (fst r))%Z
   /\ currentPage (fst r)
      = (if (currentPage s =? totalPages s)%Z then currentPage s else currentPage s + 1)%Z
   /\ Forall (fun eff => exists q, eff = GetBusinesses q
                                   /\ page q = currentPage (fst r)
                                   /\ per_page q = perPage s) (snd r))
  /\ (let r := click_previous s in
      (1 <= currentPage (fst r) <= totalPages (fst r))%Z
      /\ currentPage (fst r)
         = (if (currentPage s =? 1)%Z then currentPage s else currentPage s - 1)%Z
      /\ Forall (fun eff => exists q, eff = GetBusinesses q
                                      /\ page q = currentPage (fst r)
                                      /\ per_page q = perPage s) (snd r)).
Proof.
  intros Hp. unfold click_next, click_previous, next_control, previous_control,
    pagination_shown, next_disabled, previous_disabled.
  split.
  - destruct (Z.ltb_spec 1 (totalPages s)), (Z.eqb_spec (currentPage s) (totalPages s));
      simpl; repeat split; try lia; try constructor; eauto.
  - destruct (Z.ltb_spec 1 (totalPages s)), (Z.eqb_spec (currentPage s) 1);
      simpl; repeat split; try lia; try constructor; eauto.
Qed.

Lemma navigation_stays_in_range_witness :
  let s := set_totalPages 3 (set_currentPage 2 initial) in
  (1 <= currentPage s <= totalPages s)%Z
  /\ currentPage (fst (click_next s)) = 3%Z
  /\ currentPage (fst (click_next (fst (click_next s)))) = 3%Z
  /\ (1 <= currentPage (fst (click_previous s)) <= totalPages (fst (click_previous s)))%Z.
Proof.
  intros s.
  assert (1 <= currentPage s <= totalPages s)%Z as H by (simpl; lia).
  destruct (navigation_stays_in_range s H) as [_ (Hprev & _ & _)].
  split; [exact H | split; [reflexivity | split; [reflexivity | exact Hprev]]].
Defined.

(** X11. Typing in any of the three filters keeps the current page: the
    text is stored as typed and the request asks for the same page with
    the same page size.  When the answer has fewer pages than that page
    number, the page is not corrected, and the navigation bar is either
    hidden (at most one page) or has both of its buttons enabled, Next
    included. *)
Theorem filter_keeps_page (v : string) (s : data) (response_data : Page) :
  (total_pages response_data < currentPage s)%Z ->
  filters (fst (input_business_name v s))
  = {| f_business_name := v; f_industry := f_industry (filters s);
       f_location := f_location (filters s) |}
  /\ filters (fst (input_industry v s))
     = {| f_business_name := f_business_name (filters s); f_industry := v;
          f_location := f_location (filters s) |}
  /\ filters (fst (input_location v s))
     = {| f_business_name := f_business_name (filters s);
          f_industry := f_industry (filters s); f_location := v |}
  /\ Forall
       (fun sent =>
          (exists q, snd sent = [GetBusinesses q]
                     /\ page q = currentPage s
                     /\ per_page q = perPage s)
          /\ (let s' := fst (fetchBusinesses_resolve response_data (fst sent)) in
              currentPage s' = currentPage s
              /\ next_control s'
                 = (if (1 <? total_pages response_data)%Z then Button false else Absent)
              /\ previous_control s'
                 = (if (1 <? total_pages response_data)%Z then Button false else Absent)))
       [input_business_name v s; input_industry v s; input_location v s].
Proof.
  intros Hp. repeat (split; [reflexivity |]).
  assert ((if (1 <? total_pages response_data)%Z
           then Button (currentPage s =? total_pages response_data)%Z else Absent)
          = (if (1 <? total_pages response_data)%Z then Button false else Absent)
          /\ (if (1 <? total_pages response_data)%Z
              then Button (currentPage s =? 1)%Z else Absent)
             = (if (1 <? total_pages response_data)%Z then Button false else Absent))
    as [Hnext Hprev].
  { destruct (Z.ltb_spec 1 (total_pages response_data)); [| split; reflexivity].
    destruct (Z.eqb_spec (currentPage s) (total_pages response_data)); [lia |].
    destruct (Z.eqb_spec (currentPage s) 1); [lia |]. split; reflexivity. }
  repeat constructor; try (eexists; repeat split); assumption.
Qed.

Lemma filter_keeps_page_witness :
  let s := set_totalPages 5 (set_currentPage 3 initial) in
  let r := {| page_businesses := [sample_business 1 "Acme" None]; total_pages := 1 |} in
  let s' := fst (fetchBusinesses_resolve r (fst (input_industry "Food" s))) in
  (total_pages r < currentPage s)%Z
  /\ f_industry (filters s') = "Food"
  /\ currentPage s' = 3%Z
  /\ next_control s' = Absent
  /\ previous_control s' = Absent.
Proof.
  intros s r s'.
  assert (total_pages r < currentPage s)%Z as H by (simpl; lia).
  destruct (filter_keeps_page "Food" s r H) as (_ & _ & _ & Hall).
  apply Forall_cons in Hall. destruct Hall as [_ Hall].
  apply Forall_cons in Hall. destruct Hall as [(_ & Hc & Hn & Hpv) _].
  split; [exact H | split; [reflexivity |]].
  split; [exact Hc | split; [exact Hn | exact Hpv]].
Defined.

Lemma findIndex_None {A : Type} (p : A -> bool) (l : list A) :
  (forall x, x ∈ l -> p x = false) -> JS.findIndex p l = None.
Proof.
  induction l as [| y l IH]; intros H; simpl; [reflexivity |].
  rewrite (H y) by left. rewrite IH; [reflexivity |].
  intros x Hx. apply H. right. exact Hx.
Qed.

(** X12. A lookup answer changes at most one entry of the displayed list:
    the list keeps its length, and every position other than the one
    [findIndex] returns keeps its record. *)
Theorem lookup_answer_replaces_one_entry
    (businessId : nat) (business : Business) (s : data) :
  let r := findWebsite_resolve businessId business s in
  List.length (businesses (fst r)) = List.length (businesses s)
  /\ (forall j, JS.findIndex (fun b => Nat.eqb (id b) businessId) (businesses s) <> Some j ->
                businesses (fst r) !! j = businesses s !! j)
  /\ isSearchingWebsite (fst r) = None.
Proof.
  cbv zeta. unfold findWebsite_resolve.
  destruct (JS.findIndex _ (businesses s)) as [index |]; simpl.
  - split; [apply length_insert | split; [| reflexivity]].
    intros j Hj. apply list_lookup_insert_ne. congruence.
  - repeat split.
Qed.

(** X13. A lookup answer for an id that no displayed record has is
    dropped: the list is left as it is and no notification is raised;
    only the busy indication is cleared. *)
Theorem stale_lookup_answer_dropped
    (businessId : nat) (business : Business) (s : data) :
  (forall b, b ∈ businesses s -> id b <> businessId) ->
  findWebsite_resolve businessId business s = (set_isSearchingWebsite None s, []).
Proof.
  intros H. unfold findWebsite_resolve. rewrite findIndex_None; [reflexivity |].
  intros x Hx. apply Nat.eqb_neq. apply H. exact Hx.
Qed.

Lemma stale_lookup_answer_dropped_witness :
  let s := fst (clearData_resolve (fst (findWebsite_start 2 (component sample_system)))) in
  findWebsite_resolve 2 (sample_business 2 "Bakery" (Some "https://bakery.example")) s
  = (set_isSearchingWebsite None s, []).
Proof.
  intros s.
  apply (stale_lookup_answer_dropped 2
           (sample_business 2 "Bakery" (Some "https://bakery.example")) s).
  intros b Hb. simpl in Hb. apply elem_of_nil in Hb. destruct Hb.
Defined.

(** X14. After a successful clear the directory is empty and back on
    page 1 without filters: the Clear button and the navigation bar are
    gone and the next fetch asks for page 1 with empty filters.  A
    loading indicator or an error text that was shown stays shown.
    Declining the confirmation sends nothing and changes nothing. *)
Theorem clear_resets_directory (s : data) :
  let s' := fst (clearData_resolve s) in
  clear_button_shown s' = false
  /\ previous_control s' = Absent
  /\ next_control s' = Absent
  /\ snd (fetchBusinesses_start s')
     = [GetBusinesses {| page := 1; per_page := perPage s; p_business_name := "";
                         p_industry := ""; p_location := "" |}]
  /\ view s' = match view s with
               | ViewLoading => ViewLoading
               | ViewError msg => ViewError msg
               | _ => ViewNoData
               end
  /\ confirmClear false s = (s, [])
  /\ snd (confirmClear true s) = [PostClear].
Proof.
  cbv zeta. repeat (split; [reflexivity |]).
  split; [| split; reflexivity].
  unfold view. simpl. destruct (loading s); [reflexivity |].
  destruct (error s) as [msg |]; [destruct (JS.truthy msg); [reflexivity |] |];
    destruct (List.length (businesses s) =? 0)%nat; reflexivity.
Qed.

(** X15. A failed fetch puts an error text, never empty, in place of the
    list and raises a toast with the same text; the records fetched
    before stay in the data.  The next fetch shows the loading indicator
    and, once it succeeds, the new page (or the no-data text when the
    page is empty), the error being gone. *)
Theorem fetch_failure_then_recovery (e : JS.Error) (s : data) (response_data : Page) :
  let failed := fetchBusinesses_reject e s in
  let retried := fst (fetchBusinesses_start (fst failed)) in
  (exists msg, msg <> ""
               /\ view (fst failed) = ViewError msg
               /\ snd failed = [Toast JS.error_toast msg])
  /\ businesses (fst failed) = businesses s
  /\ view retried = ViewLoading
  /\ view (fst (fetchBusinesses_resolve response_data retried))
     = (if (List.length (page_businesses response_data) =? 0)%nat then ViewNoData
        else ViewGrid (page_businesses response_data)).
Proof.
  cbv zeta. split; [| repeat split].
  exists (JS.or_else (JS.response_data_error e) "Error fetching businesses").
  assert (JS.or_else (JS.response_data_error e) "Error fetching businesses" <> "") as Hne
    by (apply or_else_nonempty; discriminate).
  split; [exact Hne | split; [| reflexivity]].
  unfold view. simpl. apply truthy_true in Hne. rewrite Hne. reflexivity.
Qed.

(** X17. Opening the email modal for a record renders it with that
    record, and the modal, created with empty data, at once sends one
    generation request with the record's id and the fixed prompt, showing
    the loading indicator.  Closing removes the modal; from a closed
    directory, opening and closing gives back the same data. *)
Theorem open_modal_starts_generation (business : Business) (s : data) :
  email_modal_props (openEmailModal business s) = Some (true, business)
  /\ EmailModal.created true business
     = ({| EmailModal.email := ""; EmailModal.loading := true; EmailModal.error := None |},
        [EmailModal.PostGenerateEmail (id business) EmailModal.user_prompt_template])
  /\ EmailModal.modal_body (fst (EmailModal.created true business)) = EmailModal.Loading
  /\ email_modal_props (closeEmailModal (openEmailModal business s)) = None
  /\ (email_modal_props s = None -> isEmailModalOpen s = false ->
      closeEmailModal (openEmailModal business s) = s).
Proof.
  repeat (split; [reflexivity |]).
  unfold email_modal_props. intros H1 H2. destruct s as [? ? ? ? ? ? ? ? o sb].
  simpl in *. destruct sb; [discriminate |]. subst. reflexivity.
Qed.

Lemma busy_in_flight_fold (evs : list lookup_event) (sys : system) :
  (forall z, isSearchingWebsite (component sys) = Some z -> In z (in_flight sys)) ->
  forall z, isSearchingWebsite (component (run_lookups sys evs)) = Some z ->
            In z (in_flight (run_lookups sys evs)).
Proof.
  revert sys. induction evs as [| ev evs IH]; intros sys Hsys; [exact Hsys |].
  unfold run_lookups. cbn [fold_left]. apply IH.
  destruct ev as [x | x b | x e]; simpl.
  - intros z [= <-]. left. reflexivity.
  - unfold findWebsite_resolve. destruct (JS.findIndex _ _); simpl; discriminate.
  - discriminate.
Qed.

(** X20. The busy indication never shows for a record that has no lookup
    in flight: in any sequence of triggers and settled requests started
    with no record busy, a record that shows busy has a request
    pending. *)
Theorem busy_only_while_in_flight (s : data) (evs : list lookup_event) (Z : nat) :
  isSearchingWebsite s = None ->
  searching (component (run_lookups {| component := s; in_flight := [] |} evs)) Z = true ->
  In Z (in_flight (run_lookups {| component := s; in_flight := [] |} evs)).
Proof.
  intros Hs Hz. apply busy_in_flight_fold.
  - simpl. rewrite Hs. discriminate.
  - unfold searching in Hz.
    destruct (isSearchingWebsite (component (run_lookups _ evs))) as [x |];
      [| discriminate].
    apply Nat.eqb_eq in Hz. subst x. reflexivity.
Qed.

Lemma busy_only_while_in_flight_witness :
  let sys := run_lookups sample_system
               [Trigger 1; Fulfilled 1 (sample_business 1 "Acme" None); Trigger 2] in
  searching (component sys) 2 = true /\ In 2%nat (in_flight sys).
Proof.
  intros sys.
  assert (searching (component sys) 2 = true) as H by reflexivity.
  split; [exact H |].
  apply (busy_only_while_in_flight (component sample_system)
           [Trigger 1; Fulfilled 1 (sample_business 1 "Acme" None); Trigger 2] 2
           eq_refl H).
Defined.

End DirectoryFacts.

(** ** More on the email generator *)

Section GeneratorFacts.

Import EmailModal.

(** X18. Whatever makes the generation fail, the generator ends in the
    errored state with a non-empty text, shown in the modal and carried
    by one error toast: the error member of the response when it is not
    empty, else the message of the error when it is not empty, else the
    generic text.  The stored email is not touched. *)
Theorem any_failure_ends_errored (e : JS.Error) (s : data) :
  let msg :=
    if JS.truthy_opt (JS.response_data_error e)
    then default "" (JS.response_data_error e)
    else if JS.truthy (JS.message e) then JS.message e
         else "Error generating email" in
  msg <> ""
  /\ fst (generateEmail_reject e s)
     = {| email := email s; loading := false; error := Some msg |}
  /\ snd (generateEmail_reject e s) = [Toast JS.error_toast msg]
  /\ modal_body (fst (generateEmail_reject e s)) = ErrorText msg
  /\ state_of (fst (generateEmail_reject e s)) = errored.
Proof.
  intros msg.
  assert (JS.or_else (JS.response_data_error e)
            (JS.or_else (Some (JS.message e)) "Error generating email") = msg) as Heq.
  { subst msg. unfold JS.or_else.
    destruct (JS.response_data_error e) as [x |]; simpl; [| reflexivity].
    destruct (JS.truthy x); reflexivity. }
  assert (msg <> "") as Hne.
  { rewrite <- Heq. apply or_else_nonempty, or_else_nonempty. discriminate. }
  split; [exact Hne |]. apply (catch_shows e s msg Hne Heq).
Qed.

(** X19. A generation that succeeds with a non-empty text shows exactly
    that text and raises no notification, and an error left by an earlier
    attempt is gone: the loading indicator is shown while the request is
    in flight and the text afterwards. *)
Theorem regenerate_clears_error
    (business : BusinessList.Business) (text : string) (s : data) :
  text <> "" ->
  let started := fst (generateEmail_start business s) in
  let r := generateEmail_resolve (Some text) started in
  modal_body started = Loading
  /\ fst r = {| email := text; loading := false; error := None |}
  /\ modal_body (fst r) = EmailContent text
  /\ state_of (fst r) = displayed
  /\ snd r = [].
Proof.
  intros Ht started r. subst started r. apply truthy_true in Ht.
  unfold generateEmail_resolve. rewrite Ht. repeat split.
Qed.

Lemma regenerate_clears_error_witness :
  let s := fst (generateEmail_reject (backend_error "quota exceeded" "") sample_displayed) in
  let r := generateEmail_resolve (Some "Dear Acme, again")
             (fst (generateEmail_start sample_business s)) in
  "Dear Acme, again" <> ""
  /\ modal_body s = ErrorText "quota exceeded"
  /\ modal_body (fst r) = EmailContent "Dear Acme, again"
  /\ snd r = [].
Proof.
  intros s r.
  assert ("Dear Acme, again" <> "") as H by discriminate.
  destruct (regenerate_clears_error sample_business "Dear Acme, again" s H)
    as (_ & _ & Hb & _ & Ht).
  split; [exact H | split; [reflexivity | split; [exact Hb | exact Ht]]].
Defined.

End GeneratorFacts.
